(** * A four-panel comic generator: story planning, panel rendering,
      page composition and the driver that chains them.

    The development follows [Comic.ipynb].  Python [str] values are lists
    of Unicode code points, Python [int] values are [Z], dictionaries are
    [gmap]s.  The two pretrained models, the clock and the font files are
    external: they are fields of a record of services, and every statement
    about the notebook is proved for all services.  Each Python function
    is a computation that threads the state of the outside world and may
    raise. *)

From Stdlib Require Import ZArith QArith DecimalString Lia.
From stdpp Require Import base strings list gmap.

Local Open Scope Z_scope.

(** ** Python strings *)

(** A [str] is a sequence of code points; [len] is [length], [s[:n]] is
    [take n s], [+] is [++]. *)
Abbreviation pystr := (list N).

(** A literal of the notebook (all of them are ASCII). *)
Fixpoint py (s : string) : pystr :=
  match s with
  | EmptyString => []
  | String a s' => Ascii.N_of_ascii a :: py s'
  end.

Arguments py : simpl never.

(** The line feed that a backslash-n escape denotes. *)
Definition nl : pystr := [10%N].

(** [str(z)], as an f-string formats an [int]. *)
Definition str_int (z : Z) : pystr := py (NilZero.string_of_int (Z.to_int z)).

(** [int(x)] for a float [x]: floats are rationals, [int] truncates
    towards zero. *)
Definition int_float (x : Q) : Z := Z.quot (Qnum x) (Z.pos (Qden x)).

(** [c.isspace()] for one code point, CPython's [_PyUnicode_IsWhitespace]. *)
Definition isspace (c : N) : bool :=
  ((0x09 <=? c) && (c <=? 0x0D) || (0x1C <=? c) && (c <=? 0x20)
   || (c =? 0x85) || (c =? 0xA0) || (c =? 0x1680)
   || (0x2000 <=? c) && (c <=? 0x200A)
   || (c =? 0x2028) || (c =? 0x2029) || (c =? 0x202F) || (c =? 0x205F)
   || (c =? 0x3000))%N.

Fixpoint lstrip (s : pystr) : pystr :=
  match s with
  | [] => []
  | c :: s' => if isspace c then lstrip s' else s
  end.

Definition rstrip (s : pystr) : pystr := rev (lstrip (rev s)).

(** [s.strip()] *)
Definition strip (s : pystr) : pystr := lstrip (rstrip s).

(** [s.split(sep)] for a one-character separator: the pieces between the
    occurrences of [sep], empty pieces included. *)
Fixpoint split (sep : N) (s : pystr) : list pystr :=
  match s with
  | [] => [[]]
  | c :: s' =>
      if (c =? sep)%N then [] :: split sep s'
      else match split sep s' with
           | p :: ps => (c :: p) :: ps
           | [] => [[c]]
           end
  end.

(** The pipe character. *)
Definition pipe_char : N := 0x7C%N.

(** [s.lower()] on ASCII text; the notebook lowers the four panel types
    only. *)
Definition lower_char (c : N) : N :=
  if ((0x41 <=? c) && (c <=? 0x5A))%N then (c + 32)%N else c.

Definition lower (s : pystr) : pystr := map lower_char s.

(** [enumerate(l)] *)
Definition enumerate {A} (l : list A) : list (Z * A) :=
  imap (fun i a => (Z.of_nat i, a)) l.

(** ** Exceptions and results *)

Inductive exn :=
| AttributeError
| IndexError
| KeyError
| OSError
| ServiceError (msg : pystr).

Inductive result (A : Type) :=
| Ok (a : A)
| Raised (e : exn).
Arguments Ok {A} a.
Arguments Raised {A} e.

(** What [response[0]['generated_text']] holds: the text-generation
    pipeline is untyped, so next to a [str] there is a value that is not
    one. *)
Inductive pyobj :=
| PyStr (s : pystr)
| PyNone.

(** ** Data model *)

(** The dictionary appended to [panels]; its keys are fixed, so it is a
    record.  Field [p_panel] is key "panel", [p_type] is key "type", and
    so on. *)
Record panel := {
  p_panel : Z;
  p_type : pystr;
  p_text : pystr;
  p_dialogue : pystr;
  p_image_prompt : pystr
}.

Abbreviation colour := (Z * Z * Z)%type.

Inductive font :=
| TrueType (name : pystr) (size : Z)
| DefaultFont.

(** Keyword arguments of the two model calls. *)
Record t5_args := {
  max_length : Z;
  do_sample : bool;
  temperature : Q
}.

Record sd_args := {
  guidance_scale : Q;
  num_inference_steps : Z;
  height : Z;
  width : Z
}.

(** ** Images and the composed page *)

(** A panel image is whatever the image model returns.  The page is a new
    white image of a given size on which the composer pastes and draws;
    it is kept as its size, its background and the operations applied to
    it, oldest first.  (Pillow clips what falls outside the page: no
    operation changes the size, and none raises for that reason.) *)
Inductive draw_op (image : Type) :=
| Paste (im : image) (xy : Z * Z)
| Rectangle (box : Z * Z * Z * Z) (fill : option colour)
    (outline : option colour) (line_width : Z)
| Text (xy : Z * Z) (s : pystr) (fill : colour) (f : font).
Arguments Paste {image} im xy.
Arguments Rectangle {image} box fill outline line_width.
Arguments Text {image} xy s fill f.

Record canvas (image : Type) := {
  im_size : Z * Z;
  background : colour;
  ops : list (draw_op image)
}.
Arguments im_size {image} c.
Arguments background {image} c.
Arguments ops {image} c.

(** [Image.new('RGB', size, color)] *)
Definition Image_new {image} (sz : Z * Z) (color : colour) : canvas image :=
  {| im_size := sz; background := color; ops := [] |}.

Definition draw {image} (comic : canvas image) (op : draw_op image)
  : canvas image :=
  {| im_size := im_size comic; background := background comic;
     ops := ops comic ++ [op] |}.

(** ** Observable effects of the notebook's own statements *)

Inductive event (image : Type) :=
| Printed (s : pystr)
| Saved (filename : pystr) (im : canvas image)
| Shown (im : canvas image) (title : pystr).
Arguments Printed {image} s.
Arguments Saved {image} filename im.
Arguments Shown {image} im title.

(** The files written by a trace, in order. *)
Definition saved_files {image} (t : list (event image))
  : list (pystr * canvas image) :=
  omap (fun ev => match ev with
                  | Saved filename im => Some (filename, im)
                  | _ => None
                  end) t.

(** ** The outside world *)

(** [Env] is the state of everything the notebook does not own: the two
    models, the clock, the disk.  A call runs in a state, returns or
    raises, and leaves a new state: the text model samples, so two calls
    with one prompt may differ. *)
Record services (Env image : Type) := {
  (** tokenizer, model and pipeline construction of [StoryGenerator] *)
  load_text_model : Env -> pystr -> result unit * Env;
  (** [self.generator(prompt, ...)[0]['generated_text']] *)
  generator : Env -> pystr -> t5_args -> result pyobj * Env;
  (** pipeline construction of [ImageGenerator] *)
  load_image_model : Env -> pystr -> result unit * Env;
  (** [self.pipe(prompt, ...).images[0]] under autocast *)
  pipe : Env -> pystr -> sd_args -> result image * Env;
  (** [time.time()] *)
  time_time : Env -> Q * Env;
  (** whether the disk takes the file that [save] writes *)
  fs_write : Env -> pystr -> result unit * Env;
  (** whether [ImageFont.truetype] finds the font file *)
  font_file : pystr -> bool
}.
Arguments load_text_model {Env image} s.
Arguments generator {Env image} s.
Arguments load_image_model {Env image} s.
Arguments pipe {Env image} s.
Arguments time_time {Env image} s.
Arguments fs_write {Env image} s.
Arguments font_file {Env image} s.

(** The clock never raises. *)
Definition time_time_call {Env image} (svc : services Env image) (e : Env)
  : result Q * Env :=
  let (t, e') := time_time svc e in (Ok t, e').

Record world (Env image : Type) := {
  env : Env;
  trace : list (event image)
}.
Arguments env {Env image} w.
Arguments trace {Env image} w.

(** Objects of the three classes. *)
Record StoryGenerator := { model_name : pystr }.
Record ImageGenerator := { model_id : pystr }.
Record ComicAssembler := {
  font_title : font;
  font_text : font;
  font_dialogue : font
}.

Declare Scope py_scope.
Delimit Scope py_scope with py.

Section Computations.
Context {Env image : Type}.

(** A Python computation: it runs in a world, returns or raises, and
    leaves a world; what it did before raising stays done. *)
Definition M (A : Type) : Type :=
  world Env image -> result A * world Env image.

Definition ret {A} (a : A) : M A := fun w => (Ok a, w).

Definition bind {A B} (m : M A) (k : A -> M B) : M B :=
  fun w => match m w with
           | (Ok a, w') => k a w'
           | (Raised e, w') => (Raised e, w')
           end.

Definition raise {A} (e : exn) : M A := fun w => (Raised e, w).

(** [try: body except: handler] with a bare [except]. *)
Definition try_except {A} (body handler : M A) : M A :=
  fun w => match body w with
           | (Ok a, w') => (Ok a, w')
           | (Raised _, w') => handler w'
           end.

(** A call into the outside world. *)
Definition call {A} (f : Env -> result A * Env) : M A :=
  fun w => let (r, e') := f (env w) in
           (r, {| env := e'; trace := trace w |}).

Definition emit (ev : event image) : M unit :=
  fun w => (Ok tt, {| env := env w; trace := trace w ++ [ev] |}).

Definition print (s : pystr) : M unit := emit (Printed s).

(** [for a in l: acc = body(acc, a)], the loop variables that the body
    rebinds being [acc]. *)
Fixpoint for_each {A B} (l : list A) (acc : B) (body : B -> A -> M B)
  : M B :=
  match l with
  | [] => ret acc
  | a :: l' => bind (body acc a) (fun acc' => for_each l' acc' body)
  end.
End Computations.

Notation "x <- c1 ;; c2" := (bind c1 (fun x => c2))
  (at level 100, c1 at next level, right associativity) : py_scope.
Notation "c1 ;; c2" := (bind c1 (fun _ => c2))
  (at level 100, right associativity) : py_scope.

Local Open Scope py_scope.

(** ** The notebook *)

Section Program.
Context {Env image : Type} (svc : services Env image).

Local Abbreviation M := (@M Env image).

(** *** Operations of the Python objects that can raise *)

(** [o.split(sep)]: only a [str] has the method. *)
Definition str_split (o : pyobj) (sep : N) : M (list pystr) :=
  match o with
  | PyStr s => ret (split sep s)
  | PyNone => raise AttributeError
  end.

(** [o[:n]]: the value that is not a string cannot be sliced. *)
Definition slice_to (o : pyobj) (n : nat) : M pystr :=
  match o with
  | PyStr s => ret (take n s)
  | PyNone => raise AttributeError
  end.

(** [l[i]] *)
Definition getitem {A} (l : list A) (i : nat) : M A :=
  match l !! i with
  | Some a => ret a
  | None => raise IndexError
  end.

(** [d[k]] *)
Definition dict_getitem (d : gmap pystr pystr) (k : pystr) : M pystr :=
  match d !! k with
  | Some v => ret v
  | None => raise KeyError
  end.

(** *** Phase 1: story generation *)

Definition StoryGenerator_init : M StoryGenerator :=
  print (py "Loading text generation model...") ;;
  let model_name := py "google/flan-t5-base" in
  call (fun e => load_text_model svc e model_name) ;;
  print (py "Text generation model loaded successfully!") ;;
  ret {| model_name := model_name |}.

Definition panel_types : list pystr :=
  [py "Introduction"; py "Storyline"; py "Climax"; py "Resolution"].

(** The instruction sent to the text model for one panel. *)
Definition panel_prompt (panel_type prompt : pystr) : pystr :=
  nl ++ py "            Create a " ++ lower panel_type
     ++ py " panel for a comic about: " ++ prompt ++ nl
  ++ nl
  ++ py "            Include:" ++ nl
  ++ py "            1. A brief description (30-50 words)" ++ nl
  ++ py "            2. One line of dialogue" ++ nl
  ++ py "            3. Detailed visual description for an image" ++ nl
  ++ nl
  ++ py "            Format: Description | Dialogue | Visual" ++ nl
  ++ py "            ".

Definition generator_kwargs : t5_args :=
  {| max_length := 200; do_sample := true; temperature := (7 # 10)%Q |}.

(** The [try] statement of the loop body: the three fields of the panel
    from the model's answer. *)
Definition parse_content (i : Z) (panel_type prompt : pystr)
    (content : pyobj) : M (pystr * pystr * pystr) :=
  try_except
    (parts <- str_split content pipe_char ;;
     if (3 <=? length parts)%nat then
       p0 <- getitem parts 0 ;;
       p1 <- getitem parts 1 ;;
       p2 <- getitem parts 2 ;;
       ret (strip p0, strip p1, strip p2)
     else
       head <- slice_to content 100 ;;
       ret (strip head,
            py "Panel " ++ str_int (i + 1) ++ py " dialogue",
            py "Comic panel showing " ++ lower panel_type ++ py " about "
              ++ prompt ++ py ", detailed illustration"))
    (ret (py "Panel " ++ str_int (i + 1) ++ py ": " ++ panel_type,
          py "Panel " ++ str_int (i + 1) ++ py " dialogue",
          py "Comic panel showing " ++ lower panel_type ++ py " about "
            ++ prompt ++ py ", detailed illustration")).

(** One turn of the loop of [generate_story]. *)
Definition story_step (prompt : pystr) (panels : list panel)
    (it : Z * pystr) : M (list panel) :=
  let '(i, panel_type) := it in
  content <- call (fun e =>
    generator svc e (panel_prompt panel_type prompt) generator_kwargs) ;;
  fields <- parse_content i panel_type prompt content ;;
  let '(text, dialogue, image_prompt) := fields in
  let panels := panels ++ [ {| p_panel := i + 1;
                               p_type := panel_type;
                               p_text := text;
                               p_dialogue := dialogue;
                               p_image_prompt := image_prompt |} ] in
  print (py "Generated " ++ panel_type ++ py " panel") ;;
  ret panels.

Definition generate_story (self : StoryGenerator) (prompt : pystr)
  : M (list panel) :=
  print (py "Generating story...") ;;
  panels <- for_each (enumerate panel_types) [] (story_step prompt) ;;
  ret panels.

(** *** Phase 2: image generation *)

Definition ImageGenerator_init : M ImageGenerator :=
  print (py "Loading image generation model...") ;;
  let model_id := py "runwayml/stable-diffusion-v1-5" in
  call (fun e => load_image_model svc e model_id) ;;
  print (py "Image generation model loaded successfully!") ;;
  ret {| model_id := model_id |}.

Definition styles : gmap pystr pystr :=
  list_to_map
    [ (py "comic", py "comic book style, detailed illustration");
      (py "manga", py "manga style, black and white");
      (py "superhero", py "superhero comic style, dynamic pose");
      (py "cartoon", py "cartoon style, colorful and vibrant") ].

Definition pipe_kwargs : sd_args :=
  {| guidance_scale := (15 # 2)%Q; num_inference_steps := 30;
     height := 512; width := 512 |}.

Definition generate_image (self : ImageGenerator) (prompt style : pystr)
  : M image :=
  fallback <- dict_getitem styles (py "comic") ;;
  let style_prompt := default fallback (styles !! style) in
  let enhanced_prompt := style_prompt ++ py ", " ++ prompt in
  image <- call (fun e => pipe svc e enhanced_prompt pipe_kwargs) ;;
  ret image.

(** *** Phase 3: comic assembly *)

(** [ImageFont.truetype(name, size)] *)
Definition truetype (name : pystr) (sz : Z) : M font :=
  if font_file svc name then ret (TrueType name sz) else raise OSError.

Definition ComicAssembler_init : M ComicAssembler :=
  try_except
    (title <- truetype (py "DejaVuSans.ttf") 36 ;;
     text <- truetype (py "DejaVuSans.ttf") 18 ;;
     dialogue <- truetype (py "DejaVuSans.ttf") 16 ;;
     ret {| font_title := title; font_text := text;
            font_dialogue := dialogue |})
    (ret {| font_title := DefaultFont; font_text := DefaultFont;
            font_dialogue := DefaultFont |}).

Definition panel_width : Z := 512.
Definition panel_height : Z := 600.
Definition border : Z := 20.
Definition comic_width : Z := panel_width * 2 + border * 3.
Definition comic_height : Z := panel_height * 2 + border * 3.

(** One turn of the loop of [assemble_comic]: the six drawing
    statements for panel [i]. *)
Definition place_panel (self : ComicAssembler) (comic : canvas image)
    (it : Z * (panel * image)) : M (canvas image) :=
  let '(i, (panel, image)) := it in
  let row := i / 2 in
  let col := i mod 2 in
  let x := border + col * (panel_width + border) in
  let y := border + row * (panel_height + border) in
  let comic := draw comic (Paste image (x, y)) in
  let comic := draw comic
    (Rectangle (x, y, x + panel_width, y + panel_height - 88)
       None (Some (0, 0, 0)) 2) in
  let comic := draw comic
    (Rectangle (x, y + panel_width, x + panel_width, y + panel_height)
       (Some (240, 240, 240)) (Some (0, 0, 0)) 2) in
  let comic := draw comic
    (Text (x + 10, y + panel_width + 5)
       (py "Panel " ++ str_int (p_panel panel) ++ py ": " ++ p_type panel)
       (0, 0, 0) (font_text self)) in
  let text := p_text panel in
  let text := if (60 <? length text)%nat
              then take 57 text ++ py "..." else text in
  let comic := draw comic
    (Text (x + 10, y + panel_width + 30) text (0, 0, 100)
       (font_text self)) in
  let dialogue := p_dialogue panel in
  let dialogue := if (40 <? length dialogue)%nat
                  then take 37 dialogue ++ py "..." else dialogue in
  let comic := draw comic
    (Text (x + 10, y + panel_width + 60)
       ([0x22%N] ++ dialogue ++ [0x22%N]) (150, 0, 0)
       (font_dialogue self)) in
  ret comic.

Definition assemble_comic (self : ComicAssembler)
    (story_data : list panel) (images : list image) : M (canvas image) :=
  let comic := Image_new (comic_width, comic_height) (255, 255, 255) in
  let title_text := py "Comic Story" in
  let comic := draw comic
    (Text (comic_width / 2 - 100, border / 2) title_text (0, 0, 0)
       (font_title self)) in
  comic <- for_each (enumerate (zip story_data images)) comic
             (place_panel self) ;;
  ret comic.

(** *** Main function *)

(** [comic.save(filename)] *)
Definition save (comic : canvas image) (filename : pystr) : M unit :=
  call (fun e => fs_write svc e filename) ;;
  emit (Saved filename comic).

(** The matplotlib figure of the page, shown under a title. *)
Definition plt_show (comic : canvas image) (title : pystr) : M unit :=
  emit (Shown comic title).

Definition show_panel (_ : unit) (panel : panel) : M unit :=
  print (nl ++ py "Panel " ++ str_int (p_panel panel) ++ py ": "
            ++ p_type panel) ;;
  print (py "Text: " ++ p_text panel) ;;
  print (py "Dialogue: " ++ p_dialogue panel).

Definition render_step (image_gen : ImageGenerator) (style : pystr)
    (images : list image) (it : Z * panel) : M (list image) :=
  let '(i, panel) := it in
  print (nl ++ py "Generating image for panel " ++ str_int (i + 1)
            ++ py "...") ;;
  image <- generate_image image_gen (p_image_prompt panel) style ;;
  ret (images ++ [image]).

Definition generate_comic (prompt style : pystr)
  : M (canvas image * list panel) :=
  print (py "Generating comic for prompt: '" ++ prompt ++ py "'") ;;
  story_gen <- StoryGenerator_init ;;
  story_data <- generate_story story_gen prompt ;;
  print (nl ++ py "--- Generated Story ---") ;;
  for_each story_data tt show_panel ;;
  image_gen <- ImageGenerator_init ;;
  images <- for_each (enumerate story_data) []
              (render_step image_gen style) ;;
  print (nl ++ py "Assembling comic...") ;;
  assembler <- ComicAssembler_init ;;
  comic <- assemble_comic assembler story_data images ;;
  now <- call (time_time_call svc) ;;
  let timestamp := int_float now in
  let filename := py "comic_output/comic_" ++ str_int timestamp
                    ++ py ".png" in
  save comic filename ;;
  print (nl ++ py "Comic saved to " ++ filename) ;;
  plt_show comic (py "Comic based on: " ++ prompt) ;;
  ret (comic, story_data).
End Program.

(** ** Stand-ins for the services

    A scripted world for running the notebook on concrete inputs: its
    state counts the calls made so far, the text model answers call [n]
    with [reply n], an image is the length of the prompt it was made
    from, the clock shows 1730000000.5 and no font file is installed. *)
Definition scripted (reply : nat -> result pyobj) : services nat nat :=
  {| load_text_model e _ := (Ok tt, S e);
     generator e _ _ := (reply e, S e);
     load_image_model e _ := (Ok tt, S e);
     pipe e p _ := (Ok (length p), S e);
     time_time e := ((3460000001 # 2)%Q, S e);
     fs_write e _ := (Ok tt, S e);
     font_file _ := false |}.

Definition fresh : world nat nat := {| env := 0%nat; trace := [] |}.

(** A world whose text model is out of service. *)
Definition text_model_down : services nat nat :=
  scripted (fun _ => Raised (ServiceError (py "CUDA out of memory"))).

(** A world whose text model always gives the same answer. *)
Definition always (answer : pyobj) : services nat nat :=
  scripted (fun _ => Ok answer).

Definition default_fonts : ComicAssembler :=
  {| font_title := DefaultFont; font_text := DefaultFont;
     font_dialogue := DefaultFont |}.

Definition sample_panel (n : Z) (text dialogue : pystr) : panel :=
  {| p_panel := n; p_type := py "Climax"; p_text := text;
     p_dialogue := dialogue; p_image_prompt := py "a robot at an easel" |}.

Definition robot_prompt : pystr := py "a robot learns to paint".

Definition flan_t5 : StoryGenerator :=
  {| model_name := py "google/flan-t5-base" |}.

Definition stable_diffusion : ImageGenerator :=
  {| model_id := py "runwayml/stable-diffusion-v1-5" |}.

(** An answer in the requested format, and one without any pipe. *)
Definition well_formed_answer : pystr :=
  py "A robot finds a brush | What is this? | robot holding a brush".

Definition free_text_answer : pystr :=
  py "  A robot wakes up in a dusty studio ".

(** A description of 70 characters and a dialogue of 45. *)
Definition long_text : pystr :=
  py "The robot studies every canvas in the gallery before it dares to paint".

Definition long_dialogue : pystr :=
  py "I have never held anything so small and light".

Definition three_panels : list panel :=
  [sample_panel 1 (py "Dawn") (py "Hello");
   sample_panel 2 long_text long_dialogue;
   sample_panel 3 (py "Dusk") (py "Done")].

Definition four_panels : list panel :=
  three_panels ++ [sample_panel 4 (py "Night") (py "Goodbye")].

(** ** Notions used in the statements *)

(** Occurrences of a character in a string. *)
Definition count_char (c : N) (s : pystr) : nat :=
  length (filter (fun x => x = c) s).

(** The three fields that the [try] statement leaves for panel [i], as a
    function of the model's answer ([parse_content_fields] below shows
    that the statement computes it). *)
Definition fields_of (i : Z) (panel_type prompt : pystr) (content : pyobj)
  : pystr * pystr * pystr :=
  let dialogue := py "Panel " ++ str_int (i + 1) ++ py " dialogue" in
  let image_prompt := py "Comic panel showing " ++ lower panel_type
                        ++ py " about " ++ prompt
                        ++ py ", detailed illustration" in
  match content with
  | PyStr s =>
      match split pipe_char s with
      | p0 :: p1 :: p2 :: _ => (strip p0, strip p1, strip p2)
      | _ => (strip (take 100 s), dialogue, image_prompt)
      end
  | PyNone =>
      (py "Panel " ++ str_int (i + 1) ++ py ": " ++ panel_type,
       dialogue, image_prompt)
  end.

Definition make_panel (prompt : pystr) (it : Z * pystr) (content : pyobj)
  : panel :=
  let '(i, panel_type) := it in
  let '(text, dialogue, image_prompt) :=
    fields_of i panel_type prompt content in
  {| p_panel := i + 1; p_type := panel_type; p_text := text;
     p_dialogue := dialogue; p_image_prompt := image_prompt |}.

(** The prompts of one run of [generate_story], in call order. *)
Definition story_prompts (prompt : pystr) : list pystr :=
  map (fun panel_type => panel_prompt panel_type prompt) panel_types.

(** The text model asked [prompts] one after the other from state [e]:
    the answers if every call returns, the first exception otherwise. *)
Fixpoint ask {Env image} (svc : services Env image) (prompts : list pystr)
    (e : Env) : result (list pyobj) * Env :=
  match prompts with
  | [] => (Ok [], e)
  | p :: ps =>
      match generator svc e p generator_kwargs with
      | (Ok c, e') =>
          match ask svc ps e' with
          | (Ok cs, e'') => (Ok (c :: cs), e'')
          | (Raised x, e'') => (Raised x, e'')
          end
      | (Raised x, e') => (Raised x, e')
      end
  end.

(** Top-left corner of the cell of panel [i] on the page. *)
Definition cell_origin (i : Z) : Z * Z :=
  (border + (i mod 2) * (panel_width + border),
   border + (i / 2) * (panel_height + border)).

(** The images pasted on a page, with their positions, in order. *)
Definition pasted {image} (c : canvas image) : list (image * (Z * Z)) :=
  omap (fun op => match op with
                  | Paste im xy => Some (im, xy)
                  | _ => None
                  end) (ops c).

(** The strings drawn on a page, with their positions, in order. *)
Definition texts {image} (c : canvas image) : list (Z * Z * pystr) :=
  omap (fun op => match op with
                  | Text xy s _ _ => Some (xy, s)
                  | _ => None
                  end) (ops c).

(** A caption as the page shows it: at most [limit] characters, the
    first [keep] and an ellipsis when the string is longer. *)
Definition caption (limit keep : nat) (s : pystr) : pystr :=
  if (limit <? length s)%nat then take keep s ++ py "..." else s.

(** The three strings drawn under panel [i]: label, description and
    quoted dialogue. *)
Definition panel_texts {image} (it : Z * (panel * image))
  : list (Z * Z * pystr) :=
  let '(i, (panel, _)) := it in
  let '(x, y) := cell_origin i in
  [ ((x + 10, y + panel_width + 5),
     py "Panel " ++ str_int (p_panel panel) ++ py ": " ++ p_type panel);
    ((x + 10, y + panel_width + 30), caption 60 57 (p_text panel));
    ((x + 10, y + panel_width + 60),
     [0x22%N] ++ caption 40 37 (p_dialogue panel) ++ [0x22%N]) ].

(** The keys of [styles]. *)
Definition known_styles : list pystr :=
  [py "comic"; py "manga"; py "superhero"; py "cartoon"].

(** Every external call of the run returns. *)
Definition responsive {Env image} (svc : services Env image) : Prop :=
  (forall e name, exists e', load_text_model svc e name = (Ok tt, e'))
  /\ (forall e p kw, exists c e', generator svc e p kw = (Ok c, e'))
  /\ (forall e name, exists e', load_image_model svc e name = (Ok tt, e'))
  /\ (forall e p kw, exists im e', pipe svc e p kw = (Ok im, e'))
  /\ (forall e f, exists e', fs_write svc e f = (Ok tt, e')).

(** A computation that writes no file, whether it returns or raises. *)
Definition quiet {Env image A} (m : @M Env image A) : Prop :=
  forall w r w', m w = (r, w') ->
                 saved_files (trace w') = saved_files (trace w).

(** A computation that returns, whatever the world it starts in. *)
Definition returns {Env image A} (m : @M Env image A) : Prop :=
  forall w, exists a w', m w = (Ok a, w').

(** A computation whose files, added to those written before, satisfy
    [P], whether it returns or raises. *)
Definition writes {Env image A}
    (P : list (pystr * canvas image) -> Prop) (m : @M Env image A) : Prop :=
  forall w r w', m w = (r, w') ->
                 exists files,
                   saved_files (trace w') = saved_files (trace w) ++ files
                   /\ P files.

(** At most one file, named after a timestamp. *)
Definition one_comic_file {image} (files : list (pystr * canvas image))
  : Prop :=
  (length files <= 1)%nat
  /\ forall f im, In (f, im) files ->
                  exists t : Z,
                    f = py "comic_output/comic_" ++ str_int t ++ py ".png".

(** A computation that writes files only when it returns: nothing when it
    raises, and files that satisfy [P] with the value returned otherwise. *)
Definition writes_if_done {Env image A}
    (P : A -> list (pystr * canvas image) -> Prop) (m : @M Env image A)
  : Prop :=
  forall w r w',
    m w = (r, w') ->
    match r with
    | Ok a => exists files,
                saved_files (trace w') = saved_files (trace w) ++ files
                /\ P a files
    | Raised _ => saved_files (trace w') = saved_files (trace w)
    end.

(** The prefix that [generate_image] puts before a prompt for a style. *)
Definition style_prefix (style : pystr) : pystr :=
  default (py "comic book style, detailed illustration") (styles !! style).

(** The prompts that the loop of [generate_comic] sends to the image model
    for a story, in call order. *)
Definition image_prompts (style : pystr) (story_data : list panel)
  : list pystr :=
  map (fun panel => style_prefix style ++ py ", " ++ p_image_prompt panel)
    story_data.

(** The image model asked [prompts] one after the other from state [e]:
    the images if every call returns, the first exception otherwise. *)
Fixpoint paint {Env image} (svc : services Env image) (prompts : list pystr)
    (e : Env) : result (list image) * Env :=
  match prompts with
  | [] => (Ok [], e)
  | p :: ps =>
      match pipe svc e p pipe_kwargs with
      | (Ok im, e') =>
          match paint svc ps e' with
          | (Ok ims, e'') => (Ok (im :: ims), e'')
          | (Raised x, e'') => (Raised x, e'')
          end
      | (Raised x, e') => (Raised x, e')
      end
  end.

(** A string without white space at either end. *)
Definition trimmed (s : pystr) : Prop :=
  (forall c, head s = Some c -> isspace c = false)
  /\ (forall c, last s = Some c -> isspace c = false).

(** The label drawn under a panel. *)
Definition panel_label (panel : panel) : pystr :=
  py "Panel " ++ str_int (p_panel panel) ++ py ": " ++ p_type panel.

(** The text side of the outside world works. *)
Definition text_side_responsive {Env image} (svc : services Env image)
  : Prop :=
  (forall e name, exists e', load_text_model svc e name = (Ok tt, e'))
  /\ (forall e p kw, exists c e', generator svc e p kw = (Ok c, e'))
  /\ (forall e name, exists e', load_image_model svc e name = (Ok tt, e')).

(** The image model raises [x] at every call. *)
Definition image_model_raises {Env image} (svc : services Env image)
    (x : exn) : Prop :=
  forall e p kw, exists e', pipe svc e p kw = (Raised x, e').

(** A scripted world whose image model is out of memory. *)
Definition image_model_down : services nat nat :=
  {| load_text_model e _ := (Ok tt, S e);
     generator e _ _ := (Ok (PyStr well_formed_answer), S e);
     load_image_model e _ := (Ok tt, S e);
     pipe e _ _ := (Raised (ServiceError (py "CUDA out of memory")), S e);
     time_time e := ((3460000001 # 2)%Q, S e);
     fs_write e _ := (Ok tt, S e);
     font_file _ := true |}.

(** ** Strings *)

Lemma split_length (sep : N) (s : pystr) :
  length (split sep s) = S (count_char sep s).
Proof.
  unfold count_char. induction s as [|c s IH]; [reflexivity|].
  cbn [split]. destruct (N.eqb_spec c sep) as [->|Hne].
  - rewrite filter_cons_True by reflexivity. cbn. now rewrite IH.
  - rewrite filter_cons_False by assumption.
    destruct (split sep s) as [|p ps]; [discriminate IH|exact IH].
Qed.

Lemma split_few (s : pystr) :
  (count_char pipe_char s < 2)%nat <->
  (length (split pipe_char s) < 3)%nat.
Proof. rewrite split_length. lia. Qed.

(** The string operations on small inputs. *)

Example split_pipes :
  split pipe_char (py "a|b||c") = [py "a"; py "b"; []; py "c"]
  /\ split pipe_char (py "no pipe") = [py "no pipe"]
  /\ split pipe_char [] = [[]].
Proof. repeat split. Qed.

Example strip_white_space :
  strip (py "  a b  ") = py "a b"
  /\ strip (nl ++ py " x" ++ [0x3000%N]) = py "x"
  /\ strip (py "   ") = [].
Proof. repeat split. Qed.

Example str_int_decimal :
  str_int 0 = py "0" /\ str_int 1730000000 = py "1730000000"
  /\ str_int (-12) = py "-12".
Proof. repeat split. Qed.

Example int_float_truncates :
  int_float (3460000001 # 2) = 1730000000 /\ int_float (-7 # 2) = -3.
Proof. repeat split. Qed.

(** ** Computations *)

Section Properties.
Context {Env image : Type} (svc : services Env image).

Local Abbreviation M := (@M Env image).
Local Abbreviation world := (world Env image).

Lemma bind_ok {A B} (m : M A) (k : A -> M B) (w w' : world) (a : A) :
  m w = (Ok a, w') -> bind m k w = k a w'.
Proof. unfold bind. now intros ->. Qed.

Lemma bind_raised {A B} (m : M A) (k : A -> M B) (w w' : world) e :
  m w = (Raised e, w') -> bind m k w = (Raised e, w').
Proof. unfold bind. now intros ->. Qed.

Lemma world_eta (w : world) : {| env := env w; trace := trace w |} = w.
Proof. now destruct w. Qed.

Lemma emit_run ev (w : world) :
  emit ev w = (Ok tt, {| env := env w; trace := trace w ++ [ev] |}).
Proof. reflexivity. Qed.

Lemma print_run s (w : world) :
  print s w
  = (Ok tt, {| env := env w; trace := trace w ++ [Printed s] |}).
Proof. reflexivity. Qed.

(** *** Story generation *)

(** The [try] statement never raises and leaves the world alone: it
    returns the fields [fields_of] describes. *)
Lemma parse_content_fields i panel_type prompt content (w : world) :
  parse_content i panel_type prompt content w
  = (Ok (fields_of i panel_type prompt content), w).
Proof.
  unfold parse_content, fields_of, try_except.
  destruct content as [s|]; [|reflexivity].
  cbn [str_split slice_to]. unfold bind at 1. cbn [ret].
  destruct (split pipe_char s) as [|p0 [|p1 [|p2 ps]]]; reflexivity.
Qed.

Lemma story_step_ok prompt panels i panel_type (w : world) c e' :
  generator svc (env w) (panel_prompt panel_type prompt) generator_kwargs
    = (Ok c, e') ->
  story_step svc prompt panels (i, panel_type) w
  = (Ok (panels ++ [make_panel prompt (i, panel_type) c]),
     {| env := e';
        trace := trace w
                 ++ [Printed (py "Generated " ++ panel_type
                                ++ py " panel")] |}).
Proof.
  intros Hgen. unfold story_step.
  erewrite bind_ok; [|unfold call; rewrite Hgen; reflexivity].
  erewrite bind_ok; [|apply parse_content_fields].
  unfold make_panel.
  destruct (fields_of i panel_type prompt c) as [[text dialogue] ip].
  reflexivity.
Qed.

Lemma story_step_raised prompt panels i panel_type (w : world) x e' :
  generator svc (env w) (panel_prompt panel_type prompt) generator_kwargs
    = (Raised x, e') ->
  story_step svc prompt panels (i, panel_type) w
  = (Raised x, {| env := e'; trace := trace w |}).
Proof.
  intros Hgen. unfold story_step.
  erewrite bind_raised; [reflexivity|].
  unfold call. now rewrite Hgen.
Qed.

(** The loop of [generate_story] against the answers of the model. *)
Lemma story_loop prompt (l : list (Z * pystr)) :
  forall panels (w : world),
    match ask svc (map (fun it => panel_prompt it.2 prompt) l) (env w) with
    | (Ok cs, e') =>
        length cs = length l /\
        for_each l panels (story_step svc prompt) w
        = (Ok (panels ++ zip_with (make_panel prompt) l cs),
           {| env := e';
              trace := trace w
                       ++ map (fun it => Printed (py "Generated " ++ it.2
                                                    ++ py " panel")) l |})
    | (Raised x, e') =>
        exists t, for_each l panels (story_step svc prompt) w
                  = (Raised x, {| env := e'; trace := t |})
    end.
Proof.
  induction l as [|[i panel_type] l IH]; intros panels w.
  - cbn. split; [reflexivity|]. unfold ret.
    now rewrite !app_nil_r, world_eta.
  - cbn [map ask for_each snd].
    destruct (generator svc (env w) (panel_prompt panel_type prompt)
                generator_kwargs) as [[c|x] e1] eqn:Hgen.
    + erewrite bind_ok; [|apply story_step_ok, Hgen].
      specialize (IH (panels ++ [make_panel prompt (i, panel_type) c])
                    {| env := e1;
                       trace := trace w
                         ++ [Printed (py "Generated " ++ panel_type
                                        ++ py " panel")] |}).
      cbn [env trace] in IH.
      destruct (ask svc _ e1) as [[cs|x] e2].
      * destruct IH as [Hlen ->]. split; [cbn; now rewrite Hlen|].
        cbn [zip_with map snd]. now rewrite <- !app_assoc.
      * exact IH.
    + erewrite bind_raised; [|apply story_step_raised, Hgen]. eauto.
Qed.

(** [generate_story] against the answers of the model: it returns the
    four panels made from the answers, or raises what the model
    raised. *)
Lemma generate_story_ask self prompt (w : world) :
  match ask svc (story_prompts prompt) (env w) with
  | (Ok cs, e') =>
      length cs = 4%nat /\
      generate_story svc self prompt w
      = (Ok (zip_with (make_panel prompt) (enumerate panel_types) cs),
         {| env := e';
            trace := (trace w ++ [Printed (py "Generating story...")])
                     ++ map (fun it => Printed (py "Generated " ++ it.2
                                                  ++ py " panel"))
                          (enumerate panel_types) |})
  | (Raised x, e') =>
      exists t, generate_story svc self prompt w
                = (Raised x, {| env := e'; trace := t |})
  end.
Proof.
  pose proof (story_loop prompt (enumerate panel_types) []
                {| env := env w;
                   trace := trace w ++ [Printed (py "Generating story...")] |})
    as Hloop.
  change (map (fun it : Z * pystr => panel_prompt it.2 prompt)
            (enumerate panel_types))
    with (story_prompts prompt) in Hloop.
  cbn [env trace] in Hloop.
  unfold generate_story. erewrite bind_ok; [|apply print_run].
  destruct (ask svc (story_prompts prompt) (env w)) as [[cs|x] e'].
  - destruct Hloop as [Hlen Hloop]. split; [exact Hlen|].
    erewrite bind_ok; [|exact Hloop]. reflexivity.
  - destruct Hloop as [t Hloop]. exists t.
    erewrite bind_raised; [|exact Hloop]. reflexivity.
Qed.

Lemma make_panel_type prompt i panel_type c :
  p_type (make_panel prompt (i, panel_type) c) = panel_type.
Proof.
  unfold make_panel. now destruct (fields_of i panel_type prompt c) as [[? ?] ?].
Qed.

Lemma make_panel_number prompt i panel_type c :
  p_panel (make_panel prompt (i, panel_type) c) = i + 1.
Proof.
  unfold make_panel. now destruct (fields_of i panel_type prompt c) as [[? ?] ?].
Qed.

Lemma make_panel_fields prompt i panel_type c :
  (p_text (make_panel prompt (i, panel_type) c),
   p_dialogue (make_panel prompt (i, panel_type) c),
   p_image_prompt (make_panel prompt (i, panel_type) c))
  = fields_of i panel_type prompt c.
Proof.
  unfold make_panel. now destruct (fields_of i panel_type prompt c) as [[? ?] ?].
Qed.

Lemma fields_of_few_pipes i panel_type prompt s :
  (count_char pipe_char s < 2)%nat ->
  fields_of i panel_type prompt (PyStr s)
  = (strip (take 100 s),
     py "Panel " ++ str_int (i + 1) ++ py " dialogue",
     py "Comic panel showing " ++ lower panel_type ++ py " about "
       ++ prompt ++ py ", detailed illustration").
Proof.
  intros Hfew%split_few. unfold fields_of.
  destruct (split pipe_char s) as [|p0 [|p1 [|p2 ps]]]; try reflexivity.
  cbn in Hfew. lia.
Qed.

(** The four panels of a story, given the four answers. *)
Lemma story_panels_lookup prompt (cs : list pyobj) (i : nat) c panel_type :
  cs !! i = Some c ->
  panel_types !! i = Some panel_type ->
  zip_with (make_panel prompt) (enumerate panel_types) cs !! i
  = Some (make_panel prompt (Z.of_nat i, panel_type) c).
Proof.
  intros Hc Ht. rewrite lookup_zip_with, Hc.
  destruct i as [|[|[|[|i]]]]; cbn in Ht; try discriminate;
    injection Ht as <-; reflexivity.
Qed.

(** C2 (as amended).  When the text model answers the four calls of a
    run, [generate_story] returns, and every panel whose answer has
    fewer than two pipe characters has the fallback dialogue "Panel
    <i+1> dialogue" and the fallback image prompt "Comic panel showing
    <type, lowered> about <prompt>, detailed illustration", both fixed by
    index, type and prompt; its description is the first 100 characters
    of the answer with surrounding white space removed. *)
Theorem few_pipes_fields self prompt (w : world) cs e' :
  ask svc (story_prompts prompt) (env w) = (Ok cs, e') ->
  exists panels w',
    generate_story svc self prompt w = (Ok panels, w') /\
    forall (i : nat) s panel_type,
      cs !! i = Some (PyStr s) ->
      panel_types !! i = Some panel_type ->
      (count_char pipe_char s < 2)%nat ->
      exists p,
        panels !! i = Some p /\
        p_text p = strip (take 100 s) /\
        p_dialogue p
        = py "Panel " ++ str_int (Z.of_nat i + 1) ++ py " dialogue" /\
        p_image_prompt p
        = py "Comic panel showing " ++ lower panel_type ++ py " about "
            ++ prompt ++ py ", detailed illustration".
Proof.
  intros Hask. pose proof (generate_story_ask self prompt w) as Hrun.
  rewrite Hask in Hrun. destruct Hrun as [_ Hrun].
  eexists _, _. split; [exact Hrun|].
  intros i s panel_type Hc Ht Hfew.
  exists (make_panel prompt (Z.of_nat i, panel_type) (PyStr s)).
  split; [exact (story_panels_lookup prompt cs i _ _ Hc Ht)|].
  pose proof (make_panel_fields prompt (Z.of_nat i) panel_type (PyStr s))
    as Hf.
  rewrite fields_of_few_pipes in Hf by assumption.
  injection Hf as Htext Hdialogue Himage. auto.
Qed.

(** C3 (as amended).  An answer that cannot be parsed (it is not a
    string, so [split] raises) is caught inside [generate_story] and
    gives the panel the fallback fields; with such answers the story
    still has its four panels.  An exception raised by the text model
    itself is not caught: [generate_story] raises it and returns no
    panel. *)
Theorem story_exceptions self prompt (w : world) :
  match ask svc (story_prompts prompt) (env w) with
  | (Ok cs, e') =>
      exists panels w',
        generate_story svc self prompt w = (Ok panels, w') /\
        env w' = e' /\
        length panels = 4%nat /\
        forall (i : nat) panel_type,
          cs !! i = Some PyNone ->
          panel_types !! i = Some panel_type ->
          panels !! i
          = Some {| p_panel := Z.of_nat i + 1;
                    p_type := panel_type;
                    p_text := py "Panel " ++ str_int (Z.of_nat i + 1)
                                ++ py ": " ++ panel_type;
                    p_dialogue := py "Panel " ++ str_int (Z.of_nat i + 1)
                                    ++ py " dialogue";
                    p_image_prompt :=
                      py "Comic panel showing " ++ lower panel_type
                        ++ py " about " ++ prompt
                        ++ py ", detailed illustration" |}
  | (Raised x, e') =>
      exists w', generate_story svc self prompt w = (Raised x, w') /\
                 env w' = e'
  end.
Proof.
  pose proof (generate_story_ask self prompt w) as Hrun.
  destruct (ask svc (story_prompts prompt) (env w)) as [[cs|x] e'].
  - destruct Hrun as [Hlen Hrun]. eexists _, _.
    split; [exact Hrun|]. split; [reflexivity|]. split.
    + rewrite length_zip_with, Hlen. reflexivity.
    + intros i panel_type Hc Ht.
      now rewrite (story_panels_lookup prompt cs i PyNone panel_type).
  - destruct Hrun as [t Hrun]. eexists. split; [exact Hrun|reflexivity].
Qed.

(** C4.  For every user prompt, [generate_story] returns exactly four
    panels, numbered 1 to 4, whose types are Introduction, Storyline,
    Climax, Resolution in this order: no run returns anything else, and
    the run returns whenever the text model answers its four calls. *)
Theorem story_types_in_order self prompt (w : world) :
  (forall panels w',
      generate_story svc self prompt w = (Ok panels, w') ->
      length panels = 4%nat
      /\ map p_type panels
         = [py "Introduction"; py "Storyline"; py "Climax"; py "Resolution"]
      /\ map p_panel panels = [1; 2; 3; 4])
  /\ (forall cs e',
         ask svc (story_prompts prompt) (env w) = (Ok cs, e') ->
         exists panels w',
           generate_story svc self prompt w = (Ok panels, w')
           /\ length panels = 4%nat
           /\ map p_type panels
              = [py "Introduction"; py "Storyline"; py "Climax";
                 py "Resolution"]
           /\ map p_panel panels = [1; 2; 3; 4]).
Proof.
  pose proof (generate_story_ask self prompt w) as Hrun.
  assert (Hshape : forall cs : list pyobj,
             length cs = 4%nat ->
             let panels :=
               zip_with (make_panel prompt) (enumerate panel_types) cs in
             length panels = 4%nat
             /\ map p_type panels
                = [py "Introduction"; py "Storyline"; py "Climax";
                   py "Resolution"]
             /\ map p_panel panels = [1; 2; 3; 4]).
  { intros cs Hlen.
    destruct cs as [|c0 [|c1 [|c2 [|c3 [|c4 cs]]]]]; try discriminate Hlen.
    change (enumerate panel_types)
      with [(0, py "Introduction"); (1, py "Storyline"); (2, py "Climax");
            (3, py "Resolution")].
    cbn [zip_with map].
    rewrite !make_panel_type, !make_panel_number. repeat split. }
  destruct (ask svc (story_prompts prompt) (env w)) as [[cs|x] e1].
  - destruct Hrun as [Hlen Hrun]. split.
    + intros panels w'. rewrite Hrun. intros [= <- <-]. now apply Hshape.
    + intros cs' e' [= <- <-]. eexists _, _. split; [exact Hrun|].
      now apply Hshape.
  - destruct Hrun as [t Hrun]. split.
    + intros panels w'. rewrite Hrun. discriminate.
    + discriminate.
Qed.

(** *** Image generation *)

Lemma bind_ret {A} (m : M A) (w : world) :
  bind m (fun a => ret a) w = m w.
Proof. unfold bind, ret. now destruct (m w) as [[a|e] w']. Qed.

Lemma styles_unknown (style : pystr) :
  style ∉ known_styles -> styles !! style = None.
Proof.
  unfold known_styles. rewrite !not_elem_of_cons.
  intros (H1 & H2 & H3 & H4 & _).
  unfold styles. rewrite !list_to_map_cons, list_to_map_nil.
  rewrite !lookup_insert_ne by congruence. apply lookup_empty.
Qed.

Lemma generate_image_call self prompt style (w : world) :
  generate_image svc self prompt style w
  = call (fun e =>
            pipe svc e
              (default (py "comic book style, detailed illustration")
                 (styles !! style) ++ py ", " ++ prompt)
              pipe_kwargs) w.
Proof.
  unfold generate_image.
  erewrite bind_ok; [|reflexivity]. apply bind_ret.
Qed.

(** C5.  [generate_image] sends the image model the style prefix, then
    ", ", then the image prompt, the prefix being the entry of [styles]
    for the style; the lookup never raises.  A style that is not a key
    of [styles] gets the prefix of "comic", so the call is the one made
    for style "comic"; for style "manga" the prompt sent begins with
    "manga style, black and white, ". *)
Theorem enhanced_prompt_prefix self prompt style (w : world) :
  (exists prefix,
     generate_image svc self prompt style w
     = call (fun e => pipe svc e (prefix ++ py ", " ++ prompt)
                        pipe_kwargs) w
     /\ (forall v, styles !! style = Some v -> prefix = v)
     /\ (style ∉ known_styles -> Some prefix = styles !! py "comic"))
  /\ (style ∉ known_styles ->
      generate_image svc self prompt style w
      = generate_image svc self prompt (py "comic") w)
  /\ generate_image svc self prompt (py "manga") w
     = call (fun e =>
               pipe svc e (py "manga style, black and white, " ++ prompt)
                 pipe_kwargs) w.
Proof.
  split; [|split].
  - eexists. split; [apply generate_image_call|]. split.
    + now intros v ->.
    + intros Hnew%styles_unknown. now rewrite Hnew.
  - intros Hnew%styles_unknown.
    rewrite !generate_image_call, Hnew. reflexivity.
  - rewrite generate_image_call. reflexivity.
Qed.

(** *** Comic assembly *)

Lemma enumerate_lookup {A} (l : list A) (i : nat) :
  enumerate l !! i = (fun a => (Z.of_nat i, a)) <$> l !! i.
Proof.
  unfold enumerate. now rewrite list_lookup_imap.
Qed.

Lemma enumerate_length {A} (l : list A) : length (enumerate l) = length l.
Proof.
  unfold enumerate. apply length_imap.
Qed.

(** One turn of the loop: the page keeps its size, gets one more image
    and three more strings. *)
Lemma place_panel_spec self comic it (w : world) :
  exists comic',
    place_panel self comic it w = (Ok comic', w)
    /\ im_size comic' = im_size comic
    /\ pasted comic' = pasted comic ++ [(it.2.2, cell_origin it.1)]
    /\ texts comic' = texts comic ++ panel_texts it.
Proof.
  destruct it as [i [panel image0]].
  eexists. split; [reflexivity|]. split; [reflexivity|].
  unfold pasted, texts, draw. cbn [ops].
  rewrite !omap_app. cbn [omap]. rewrite !app_nil_r, <- !app_assoc.
  split; reflexivity.
Qed.

Lemma place_panels_spec self (l : list (Z * (panel * image))) :
  forall comic (w : world),
  exists comic',
    for_each l comic (place_panel self) w = (Ok comic', w)
    /\ im_size comic' = im_size comic
    /\ pasted comic'
       = pasted comic ++ map (fun it => (it.2.2, cell_origin it.1)) l
    /\ texts comic' = texts comic ++ concat (map panel_texts l).
Proof.
  induction l as [|it l IH]; intros comic w.
  - exists comic. cbn. now rewrite !app_nil_r.
  - destruct (place_panel_spec self comic it w)
      as (c1 & Hrun1 & Hsize1 & Hpaste1 & Htext1).
    destruct (IH c1 w) as (c2 & Hrun2 & Hsize2 & Hpaste2 & Htext2).
    exists c2. cbn [for_each]. erewrite bind_ok; [|exact Hrun1].
    split; [exact Hrun2|]. split; [congruence|].
    rewrite Hpaste2, Hpaste1, Htext2, Htext1. cbn [map concat].
    now rewrite <- !app_assoc.
Qed.

(** [assemble_comic] always returns: a page of the fixed size, with one
    image and three strings for each pair of a panel and an image. *)
Lemma assemble_comic_spec self story_data images (w : world) :
  exists comic,
    assemble_comic self story_data images w = (Ok comic, w)
    /\ im_size comic = (comic_width, comic_height)
    /\ pasted comic
       = map (fun it => (it.2.2, cell_origin it.1))
           (enumerate (zip story_data images))
    /\ texts comic
       = ((comic_width / 2 - 100, border / 2), py "Comic Story")
         :: concat (map panel_texts (enumerate (zip story_data images))).
Proof.
  unfold assemble_comic.
  destruct (place_panels_spec self (enumerate (zip story_data images))
              (draw (Image_new (comic_width, comic_height) (255, 255, 255))
                 (Text (comic_width / 2 - 100, border / 2)
                    (py "Comic Story") (0, 0, 0) (font_title self))) w)
    as (c & Hrun & Hsize & Hpaste & Htext).
  exists c. erewrite bind_ok; [|exact Hrun].
  split; [reflexivity|]. split; [exact Hsize|]. split; assumption.
Qed.

(** Panel [i] and image [i] form the [i]-th pair of the loop. *)
Lemma pair_lookup (story_data : list panel) (images : list image)
    (i : nat) panel image0 :
  story_data !! i = Some panel ->
  images !! i = Some image0 ->
  enumerate (zip story_data images) !! i
  = Some (Z.of_nat i, (panel, image0)).
Proof.
  intros Hp Him. rewrite enumerate_lookup, lookup_zip_with, Hp, Him.
  reflexivity.
Qed.

Lemma pairs_length (story_data : list panel) (images : list image) :
  length (enumerate (zip story_data images))
  = min (length story_data) (length images).
Proof. now rewrite enumerate_length, length_zip_with. Qed.

Lemma caption_long limit keep s :
  (keep + 3 = limit)%nat ->
  (limit < length s)%nat ->
  caption limit keep s = take keep s ++ py "..."
  /\ length (caption limit keep s) = limit.
Proof.
  intros Hkeep Hlong. unfold caption.
  destruct (Nat.ltb_spec limit (length s)) as [_|?]; [|lia].
  split; [reflexivity|].
  rewrite length_app, length_take.
  change (length (py "...")) with 3%nat. lia.
Qed.

Lemma caption_short limit keep s :
  (length s <= limit)%nat -> caption limit keep s = s.
Proof.
  intros Hshort. unfold caption.
  destruct (Nat.ltb_spec limit (length s)) as [?|_]; [lia|reflexivity].
Qed.

(** C6.  Under panel [i] the page shows the description cut to its
    first 57 characters and "..." when it is longer than 60 characters
    (60 characters in all), and unchanged otherwise; it shows the
    dialogue between double quotes, cut to its first 37 characters and
    "..." when it is longer than 40 characters, and unchanged
    otherwise. *)
Theorem captions_truncated self story_data images (w : world)
    (i : nat) panel image0 :
  story_data !! i = Some panel ->
  images !! i = Some image0 ->
  exists comic x y description dialogue,
    assemble_comic self story_data images w = (Ok comic, w)
    /\ cell_origin (Z.of_nat i) = (x, y)
    /\ In ((x + 10, y + panel_width + 30), description) (texts comic)
    /\ In ((x + 10, y + panel_width + 60),
           [0x22%N] ++ dialogue ++ [0x22%N]) (texts comic)
    /\ ((60 < length (p_text panel))%nat ->
        description = take 57 (p_text panel) ++ py "..."
        /\ length description = 60%nat)
    /\ ((length (p_text panel) <= 60)%nat -> description = p_text panel)
    /\ ((40 < length (p_dialogue panel))%nat ->
        dialogue = take 37 (p_dialogue panel) ++ py "..."
        /\ length dialogue = 40%nat)
    /\ ((length (p_dialogue panel) <= 40)%nat ->
        dialogue = p_dialogue panel).
Proof.
  intros Hp Him.
  destruct (assemble_comic_spec self story_data images w)
    as (comic & Hrun & _ & _ & Htexts).
  pose proof (pair_lookup _ _ _ _ _ Hp Him) as Hpair.
  apply list_elem_of_lookup_2, list_elem_of_In in Hpair.
  assert (Hsub : forall t,
             In t (panel_texts (Z.of_nat i, (panel, image0))) ->
             In t (texts comic)).
  { intros t Ht. rewrite Htexts. right. apply in_concat.
    eexists. split; [|exact Ht]. now apply in_map. }
  destruct (cell_origin (Z.of_nat i)) as [x y] eqn:Hcell.
  exists comic, x, y, (caption 60 57 (p_text panel)),
    (caption 40 37 (p_dialogue panel)).
  split; [exact Hrun|]. split; [reflexivity|].
  split; [apply Hsub; cbn [panel_texts]; rewrite Hcell; cbn; auto|].
  split; [apply Hsub; cbn [panel_texts]; rewrite Hcell; cbn; auto|].
  split; [now apply caption_long|]. split; [apply caption_short|].
  split; [now apply caption_long|apply caption_short].
Qed.

(** C8.  The panels go on the 2 x 2 grid row by row: the image of panel
    [i] is the [i]-th image pasted, at x = border + (i mod 2) *
    (panel_width + border) and y = border + (i div 2) * (panel_height +
    border); so panel 0 is top left, 1 top right, 2 bottom left and 3
    bottom right. *)
Theorem panels_row_major self story_data images (w : world)
    (i : nat) panel image0 :
  story_data !! i = Some panel ->
  images !! i = Some image0 ->
  exists comic,
    assemble_comic self story_data images w = (Ok comic, w)
    /\ pasted comic !! i
       = Some (image0,
               (border + (Z.of_nat i mod 2) * (panel_width + border),
                border + (Z.of_nat i / 2) * (panel_height + border)))
    /\ cell_origin 0 = (20, 20)
    /\ cell_origin 1 = (20 + 512 + 20, 20)
    /\ cell_origin 2 = (20, 20 + 600 + 20)
    /\ cell_origin 3 = (20 + 512 + 20, 20 + 600 + 20).
Proof.
  intros Hp Him.
  destruct (assemble_comic_spec self story_data images w)
    as (comic & Hrun & _ & Hpasted & _).
  exists comic. split; [exact Hrun|]. split; [|repeat split].
  rewrite Hpasted.
  change (map ?f ?l) with (f <$> l).
  rewrite list_lookup_fmap, (pair_lookup _ _ _ _ _ Hp Him). reflexivity.
Qed.

Lemma panel_texts_count (l : list (Z * (panel * image))) :
  length (concat (map panel_texts l)) = (3 * length l)%nat.
Proof.
  induction l as [|[j [p im]] l IH]; [reflexivity|].
  cbn [map concat]. rewrite length_app, IH.
  unfold panel_texts. destruct (cell_origin j). cbn [length]. lia.
Qed.

(** C1 (as amended).  [assemble_comic] has no check on the lengths: with
    a story and images whose lengths are not both 4 it does not fail, it
    returns the page with as many panels as there are pairs. *)
Theorem composer_takes_any_lengths self story_data images (w : world) :
  ~ (length story_data = 4%nat /\ length images = 4%nat) ->
  exists comic,
    assemble_comic self story_data images w = (Ok comic, w)
    /\ length (pasted comic) = min (length story_data) (length images).
Proof.
  intros _.
  destruct (assemble_comic_spec self story_data images w)
    as (comic & Hrun & _ & Hpasted & _).
  exists comic. split; [exact Hrun|].
  now rewrite Hpasted, length_map, pairs_length.
Qed.

(** C7 (as amended).  The page has a fixed size, whatever the images and
    the texts (and however many there are): its width is 2 * 512 + 3 *
    20 = 1084 and its height is 2 * 600 + 3 * 20 = 1260. *)
Theorem page_size self story_data images (w : world) :
  exists comic,
    assemble_comic self story_data images w = (Ok comic, w)
    /\ im_size comic = (2 * 512 + 3 * 20, 2 * 600 + 3 * 20)
    /\ im_size comic = (1084, 1260).
Proof.
  destruct (assemble_comic_spec self story_data images w)
    as (comic & Hrun & Hsize & _).
  exists comic. split; [exact Hrun|]. split; exact Hsize.
Qed.

(** C10.  With n panels and m images, n <> m, [assemble_comic] raises
    nothing and returns the page of the fixed size; it composes min n m
    panels, panel [i] with image [i], and leaves the rest out. *)
Theorem surplus_ignored self story_data images (w : world) :
  length story_data <> length images ->
  exists comic,
    assemble_comic self story_data images w = (Ok comic, w)
    /\ im_size comic = (comic_width, comic_height)
    /\ length (pasted comic) = min (length story_data) (length images)
    /\ length (texts comic)
       = (1 + 3 * min (length story_data) (length images))%nat
    /\ forall (i : nat) panel image0,
         story_data !! i = Some panel ->
         images !! i = Some image0 ->
         pasted comic !! i = Some (image0, cell_origin (Z.of_nat i))
         /\ forall t, In t (panel_texts (Z.of_nat i, (panel, image0))) ->
                      In t (texts comic).
Proof.
  intros _.
  destruct (assemble_comic_spec self story_data images w)
    as (comic & Hrun & Hsize & Hpasted & Htexts).
  exists comic. split; [exact Hrun|]. split; [exact Hsize|].
  split; [now rewrite Hpasted, length_map, pairs_length|]. split.
  - rewrite Htexts. cbn [length].
    now rewrite panel_texts_count, pairs_length.
  - intros i panel image0 Hp Him.
    pose proof (pair_lookup _ _ _ _ _ Hp Him) as Hpair. split.
    + rewrite Hpasted. change (map ?f ?l) with (f <$> l).
      now rewrite list_lookup_fmap, Hpair.
    + intros t Ht. rewrite Htexts. right. apply in_concat.
      eexists. split; [|exact Ht].
      apply in_map.
      now apply list_elem_of_lookup_2, list_elem_of_In in Hpair.
Qed.

(** *** Files written by a run *)

Lemma saved_files_snoc (t : list (event image)) ev :
  saved_files (t ++ [ev])
  = saved_files t ++ match ev with
                     | Saved filename im => [(filename, im)]
                     | _ => []
                     end.
Proof.
  unfold saved_files. rewrite omap_app. now destruct ev.
Qed.

Lemma quiet_ret {A} (a : A) : quiet (@ret Env image A a).
Proof. intros w r w' [= <- <-]. reflexivity. Qed.

Lemma quiet_raise {A} e : quiet (@raise Env image A e).
Proof. intros w r w' [= <- <-]. reflexivity. Qed.

Lemma quiet_bind {A B} (m : M A) (k : A -> M B) :
  quiet m -> (forall a, quiet (k a)) -> quiet (bind m k).
Proof.
  intros Hm Hk w r w'. unfold bind.
  destruct (m w) as [[a|e] w1] eqn:Hrun; intros Hrest.
  - rewrite (Hk a _ _ _ Hrest). exact (Hm _ _ _ Hrun).
  - injection Hrest as <- <-. exact (Hm _ _ _ Hrun).
Qed.

Lemma quiet_try_except {A} (body handler : M A) :
  quiet body -> quiet handler -> quiet (try_except body handler).
Proof.
  intros Hb Hh w r w'. unfold try_except.
  destruct (body w) as [[a|e] w1] eqn:Hrun; intros Hrest.
  - injection Hrest as <- <-. exact (Hb _ _ _ Hrun).
  - rewrite (Hh _ _ _ Hrest). exact (Hb _ _ _ Hrun).
Qed.

Lemma quiet_call {A} (f : Env -> result A * Env) :
  quiet (call f : M A).
Proof.
  intros w r w'. unfold call. destruct (f (env w)) as [r1 e1].
  intros [= <- <-]. reflexivity.
Qed.

Lemma quiet_print s : quiet (@print Env image s).
Proof.
  intros w r w' [= <- <-]. cbn [trace].
  rewrite saved_files_snoc. apply app_nil_r.
Qed.

Lemma quiet_plt_show comic title : quiet (@plt_show Env image comic title).
Proof.
  intros w r w' [= <- <-]. cbn [trace].
  rewrite saved_files_snoc. apply app_nil_r.
Qed.

Lemma quiet_for_each {A B} (l : list A) (body : B -> A -> M B) :
  (forall acc a, quiet (body acc a)) ->
  forall acc, quiet (for_each l acc body).
Proof.
  intros Hbody. induction l as [|a l IH]; intros acc; cbn [for_each].
  - apply quiet_ret.
  - apply quiet_bind; [apply Hbody|exact IH].
Qed.

Lemma returns_ret {A} (a : A) : returns (@ret Env image A a).
Proof. intros w. now exists a, w. Qed.

Lemma returns_bind {A B} (m : M A) (k : A -> M B) :
  returns m -> (forall a, returns (k a)) -> returns (bind m k).
Proof.
  intros Hm Hk w. destruct (Hm w) as (a & w1 & Hrun).
  destruct (Hk a w1) as (b & w2 & Hrest).
  exists b, w2. now rewrite (bind_ok _ _ _ _ _ Hrun).
Qed.

Lemma returns_call {A} (f : Env -> result A * Env) :
  (forall e, exists a e', f e = (Ok a, e')) -> returns (call f : M A).
Proof.
  intros Hf w. destruct (Hf (env w)) as (a & e' & Hrun).
  exists a. eexists. unfold call. now rewrite Hrun.
Qed.

Lemma returns_print s : returns (@print Env image s).
Proof. intros w. now eexists _, _. Qed.

Lemma returns_for_each {A B} (l : list A) (body : B -> A -> M B) :
  (forall acc a, returns (body acc a)) ->
  forall acc, returns (for_each l acc body).
Proof.
  intros Hbody. induction l as [|a l IH]; intros acc; cbn [for_each].
  - apply returns_ret.
  - apply returns_bind; [apply Hbody|exact IH].
Qed.

Lemma writes_bind {A B} P (m : M A) (k : A -> M B) :
  quiet m -> P [] -> (forall a, writes P (k a)) -> writes P (bind m k).
Proof.
  intros Hm Hnil Hk w r w'. unfold bind.
  destruct (m w) as [[a|e] w1] eqn:Hrun; intros Hrest.
  - destruct (Hk a _ _ _ Hrest) as (files & Hfiles & HP).
    exists files. now rewrite Hfiles, (Hm _ _ _ Hrun).
  - injection Hrest as <- <-. exists [].
    now rewrite app_nil_r, (Hm _ _ _ Hrun).
Qed.

Ltac quiet_tac :=
  repeat first
    [ apply quiet_ret | apply quiet_raise | apply quiet_print
    | apply quiet_plt_show | apply quiet_call | apply quiet_bind
    | apply quiet_try_except | apply quiet_for_each
    | match goal with
      | |- forall _, _ => intro
      | |- quiet (let '(_, _) := ?x in _) => destruct x
      | |- quiet (match ?x with _ => _ end) => destruct x
      end ].

Lemma quiet_StoryGenerator_init : quiet (StoryGenerator_init svc).
Proof. unfold StoryGenerator_init. quiet_tac. Qed.

Lemma quiet_parse_content i panel_type prompt content :
  quiet (parse_content i panel_type prompt content : M _).
Proof.
  intros w r w'. rewrite parse_content_fields. now intros [= <- <-].
Qed.

Lemma quiet_story_step prompt panels it :
  quiet (story_step svc prompt panels it).
Proof.
  destruct it as [i panel_type]. unfold story_step.
  apply quiet_bind; [apply quiet_call|]. intros content.
  apply quiet_bind; [apply quiet_parse_content|].
  intros [[text dialogue] image_prompt]. quiet_tac.
Qed.

Lemma quiet_generate_story self prompt :
  quiet (generate_story svc self prompt).
Proof.
  unfold generate_story.
  apply quiet_bind; [apply quiet_print|]. intros _.
  apply quiet_bind; [|intros; apply quiet_ret].
  apply quiet_for_each. intros. apply quiet_story_step.
Qed.

Lemma quiet_show_panel u p : quiet (show_panel u p : M _).
Proof. unfold show_panel. quiet_tac. Qed.

Lemma quiet_ImageGenerator_init : quiet (ImageGenerator_init svc).
Proof. unfold ImageGenerator_init. quiet_tac. Qed.

Lemma quiet_generate_image self prompt style :
  quiet (generate_image svc self prompt style).
Proof. unfold generate_image, dict_getitem. quiet_tac. Qed.

Lemma quiet_render_step image_gen style images it :
  quiet (render_step svc image_gen style images it).
Proof.
  destruct it as [i panel]. unfold render_step.
  apply quiet_bind; [apply quiet_print|]. intros _.
  apply quiet_bind; [apply quiet_generate_image|]. intros.
  apply quiet_ret.
Qed.

Lemma quiet_ComicAssembler_init : quiet (ComicAssembler_init svc).
Proof. unfold ComicAssembler_init, truetype. quiet_tac. Qed.

Lemma quiet_assemble_comic self story_data images :
  quiet (assemble_comic self story_data images : M _).
Proof.
  intros w r w' Hrun.
  destruct (assemble_comic_spec self story_data images w)
    as (comic & Hspec & _).
  rewrite Hspec in Hrun. now injection Hrun as <- <-.
Qed.

Lemma one_comic_file_nil : one_comic_file (@nil (pystr * canvas image)).
Proof. split; [cbn; lia|]. intros f im []. Qed.

Lemma save_run comic filename (w : world) e' :
  fs_write svc (env w) filename = (Ok tt, e') ->
  save svc comic filename w
  = (Ok tt, {| env := e'; trace := trace w ++ [Saved filename comic] |}).
Proof.
  intros Hfs. unfold save.
  erewrite bind_ok; [|unfold call; rewrite Hfs; reflexivity].
  reflexivity.
Qed.

Lemma save_raised comic filename (w : world) x e' :
  fs_write svc (env w) filename = (Raised x, e') ->
  save svc comic filename w = (Raised x, {| env := e'; trace := trace w |}).
Proof.
  intros Hfs. unfold save.
  erewrite bind_raised; [reflexivity|].
  unfold call. now rewrite Hfs.
Qed.

(** The last statements of [generate_comic], from [save] on. *)
Lemma writes_save_and_show comic (t : Z) line title
    (out : canvas image * list panel) :
  writes one_comic_file
    (save svc comic (py "comic_output/comic_" ++ str_int t ++ py ".png") ;;
     print line ;;
     plt_show comic title ;;
     ret out).
Proof.
  intros w r w' Hrun.
  destruct (fs_write svc (env w)
              (py "comic_output/comic_" ++ str_int t ++ py ".png"))
    as [[[]|x] e1] eqn:Hfs.
  - erewrite bind_ok in Hrun; [|apply save_run, Hfs].
    injection Hrun as <- <-. cbn [trace].
    exists [(py "comic_output/comic_" ++ str_int t ++ py ".png", comic)].
    split.
    + rewrite !saved_files_snoc. now rewrite !app_nil_r.
    + split; [cbn; lia|]. intros f im [[= <- <-]|[]]. now exists t.
  - erewrite bind_raised in Hrun; [|apply save_raised, Hfs].
    injection Hrun as <- <-. exists []. split.
    + now rewrite app_nil_r.
    + apply one_comic_file_nil.
Qed.

(** Whether it completes or aborts, a run of [generate_comic] writes at
    most one file, named after a timestamp. *)
Lemma writes_generate_comic prompt style :
  writes one_comic_file (generate_comic svc prompt style).
Proof.
  unfold generate_comic.
  do 11 (apply writes_bind;
         [ first [ apply quiet_print | apply quiet_StoryGenerator_init
                 | apply quiet_generate_story
                 | apply quiet_ImageGenerator_init
                 | apply quiet_ComicAssembler_init
                 | apply quiet_assemble_comic | apply quiet_call
                 | apply quiet_for_each; intros;
                   first [ apply quiet_show_panel
                         | apply quiet_render_step ] ]
         | apply one_comic_file_nil
         | intros ? ]).
  apply writes_save_and_show.
Qed.

(** One stage of a run that returns and writes nothing. *)
Lemma run_stage {A B} (m : M A) (k : A -> M B) (w : world) :
  returns m -> quiet m ->
  exists a w1,
    m w = (Ok a, w1)
    /\ saved_files (trace w1) = saved_files (trace w)
    /\ bind m k w = k a w1.
Proof.
  intros Hret Hquiet. destruct (Hret w) as (a & w1 & Hrun).
  exists a, w1. split; [exact Hrun|].
  split; [exact (Hquiet _ _ _ Hrun)|now apply bind_ok].
Qed.

Section Responsive.
Hypothesis Hresp : responsive svc.

Lemma returns_StoryGenerator_init : returns (StoryGenerator_init svc).
Proof.
  unfold StoryGenerator_init.
  apply returns_bind; [apply returns_print|]. intros _.
  apply returns_bind.
  - apply returns_call. intros e.
    destruct Hresp as (Hload & _). destruct (Hload e (py "google/flan-t5-base")) as [e' ->].
    now exists tt, e'.
  - intros _. apply returns_bind; [apply returns_print|]. intros _.
    apply returns_ret.
Qed.

Lemma returns_story_step prompt panels it :
  returns (story_step svc prompt panels it).
Proof.
  destruct it as [i panel_type]. unfold story_step.
  apply returns_bind.
  - apply returns_call. intros e. destruct Hresp as (_ & Hgen & _).
    apply Hgen.
  - intros content. apply returns_bind.
    + intros w. rewrite parse_content_fields. now eexists _, _.
    + intros [[text dialogue] image_prompt].
      apply returns_bind; [apply returns_print|]. intros _.
      apply returns_ret.
Qed.

Lemma returns_generate_story self prompt :
  returns (generate_story svc self prompt).
Proof.
  unfold generate_story.
  apply returns_bind; [apply returns_print|]. intros _.
  apply returns_bind; [|intros; apply returns_ret].
  apply returns_for_each. intros. apply returns_story_step.
Qed.

Lemma returns_show_panel u p : returns (show_panel u p : M _).
Proof.
  unfold show_panel.
  apply returns_bind; [apply returns_print|]. intros _.
  apply returns_bind; [apply returns_print|]. intros _.
  apply returns_print.
Qed.

Lemma returns_ImageGenerator_init : returns (ImageGenerator_init svc).
Proof.
  unfold ImageGenerator_init.
  apply returns_bind; [apply returns_print|]. intros _.
  apply returns_bind.
  - apply returns_call. intros e.
    destruct Hresp as (_ & _ & Hload & _).
    destruct (Hload e (py "runwayml/stable-diffusion-v1-5")) as [e' ->].
    now exists tt, e'.
  - intros _. apply returns_bind; [apply returns_print|]. intros _.
    apply returns_ret.
Qed.

Lemma returns_render_step image_gen style images it :
  returns (render_step svc image_gen style images it).
Proof.
  destruct it as [i panel]. unfold render_step.
  apply returns_bind; [apply returns_print|]. intros _.
  apply returns_bind; [|intros; apply returns_ret].
  intros w. rewrite generate_image_call.
  apply returns_call. intros e. destruct Hresp as (_ & _ & _ & Hpipe & _).
  apply Hpipe.
Qed.

Lemma returns_ComicAssembler_init : returns (ComicAssembler_init svc).
Proof.
  intros w. unfold ComicAssembler_init, truetype, try_except, bind, ret.
  destruct (font_file svc (py "DejaVuSans.ttf")); now eexists _, _.
Qed.

Lemma returns_assemble_comic self story_data images :
  returns (assemble_comic self story_data images : M _).
Proof.
  intros w.
  destruct (assemble_comic_spec self story_data images w)
    as (comic & Hspec & _).
  now exists comic, w.
Qed.
End Responsive.

Ltac run_next Hret Hquiet a w1 Hrun Hsaved :=
  match goal with
  | H : context [@bind _ _ _ _ ?m ?k ?w] |- _ =>
      let Hb := fresh "Hb" in
      destruct (run_stage m k w Hret Hquiet) as (a & w1 & Hrun & Hsaved & Hb);
      rewrite Hb in H; clear Hb
  end.

(** C9.  A run of [generate_comic] writes at most one file, whether it
    completes or aborts, and never a file with another name than
    comic_output/comic_<integer>.png.  When the external calls return,
    the run completes: it returns the page that [assemble_comic] made
    and the story that [generate_story] made, and it has written
    exactly one file, that page, under comic_output/comic_<t>.png where
    t is the integer part of the clock read just before the write. *)
Theorem one_png_per_run prompt style (w : world) :
  (forall r w',
      generate_comic svc prompt style w = (r, w') ->
      exists files,
        saved_files (trace w') = saved_files (trace w) ++ files
        /\ (length files <= 1)%nat
        /\ forall f im, In (f, im) files ->
                        exists t : Z,
                          f = py "comic_output/comic_" ++ str_int t
                                ++ py ".png")
  /\ (responsive svc ->
      exists comic story_data w' story_gen assembler images
             (ws ws' wa : world) e now e1,
        generate_comic svc prompt style w = (Ok (comic, story_data), w')
        /\ generate_story svc story_gen prompt ws = (Ok story_data, ws')
        /\ assemble_comic assembler story_data images wa = (Ok comic, wa)
        /\ time_time svc e = (now, e1)
        /\ fs_write svc e1
             (py "comic_output/comic_" ++ str_int (int_float now)
                ++ py ".png")
           = (Ok tt, env w')
        /\ saved_files (trace w')
           = saved_files (trace w)
             ++ [(py "comic_output/comic_" ++ str_int (int_float now)
                    ++ py ".png", comic)]).
Proof.
  split; [apply writes_generate_comic|].
  intros Hresp.
  destruct (generate_comic svc prompt style w) as [r w'] eqn:Hrun.
  unfold generate_comic in Hrun.
  run_next (returns_print (py "Generating comic for prompt: '" ++ prompt
                             ++ py "'"))
           (quiet_print (py "Generating comic for prompt: '" ++ prompt
                           ++ py "'")) u1 w1 H1 S1.
  run_next (returns_StoryGenerator_init Hresp) quiet_StoryGenerator_init
           story_gen w2 H2 S2.
  run_next (returns_generate_story Hresp story_gen prompt)
           (quiet_generate_story story_gen prompt) story_data w3 H3 S3.
  run_next (returns_print (nl ++ py "--- Generated Story ---"))
           (quiet_print (nl ++ py "--- Generated Story ---")) u4 w4 H4 S4.
  run_next (returns_for_each story_data show_panel returns_show_panel tt)
           (quiet_for_each story_data show_panel quiet_show_panel tt)
           u5 w5 H5 S5.
  run_next (returns_ImageGenerator_init Hresp) quiet_ImageGenerator_init
           image_gen w6 H6 S6.
  run_next (returns_for_each (enumerate story_data)
              (render_step svc image_gen style)
              (returns_render_step Hresp image_gen style) [])
           (quiet_for_each (enumerate story_data)
              (render_step svc image_gen style)
              (quiet_render_step image_gen style) [])
           images w7 H7 S7.
  run_next (returns_print (nl ++ py "Assembling comic..."))
           (quiet_print (nl ++ py "Assembling comic...")) u8 w8 H8 S8.
  run_next (returns_ComicAssembler_init) quiet_ComicAssembler_init
           assembler w9 H9 S9.
  run_next (returns_assemble_comic assembler story_data images)
           (quiet_assemble_comic assembler story_data images)
           comic w10 H10 S10.
  destruct (time_time svc (env w10)) as [now e1] eqn:Hclock.
  erewrite bind_ok in Hrun;
    [|unfold call, time_time_call; rewrite Hclock; reflexivity].
  destruct Hresp as (_ & _ & _ & _ & Hfs).
  destruct (Hfs e1 (py "comic_output/comic_" ++ str_int (int_float now)
                      ++ py ".png")) as [e2 Hwrite].
  cbv zeta in Hrun.
  erewrite bind_ok in Hrun; [|apply save_run, Hwrite].
  injection Hrun as <- <-.
  assert (w10 = w9) as ->.
  { destruct (assemble_comic_spec assembler story_data images w9)
      as (c & Hspec & _).
    rewrite Hspec in H10. now injection H10. }
  exists comic, story_data. eexists.
  exists story_gen, assembler, images, w2, w3, w9, (env w9), now, e1.
  split; [reflexivity|]. split; [exact H3|]. split; [exact H10|].
  split; [exact Hclock|]. split; [exact Hwrite|].
  cbn [trace]. rewrite !saved_files_snoc, !app_nil_r.
  now rewrite S9, S8, S7, S6, S5, S4, S3, S2, S1.
Qed.
End Properties.

(** ** The statements on concrete runs *)

(** A story of three panels with three images is composed: the composer
    does not fail (C1 as stated does not hold). *)
Lemma three_panels_composed :
  length three_panels <> 4%nat
  /\ (exists comic,
        assemble_comic default_fonts three_panels [7; 8; 9]%nat fresh
        = (Ok comic, fresh))
  /\ forall e w',
       assemble_comic default_fonts three_panels [7; 8; 9]%nat fresh
       <> (Raised e, w').
Proof.
  split; [discriminate|].
  destruct (assemble_comic_spec default_fonts three_panels [7; 8; 9]%nat
              fresh) as (comic & Hrun & _).
  split; [now exists comic|]. intros e w'. now rewrite Hrun.
Qed.

Lemma composer_takes_any_lengths_witness :
  ~ (length three_panels = 4%nat /\ length [7; 8; 9]%nat = 4%nat)
  /\ exists comic,
       assemble_comic default_fonts three_panels [7; 8; 9]%nat fresh
       = (Ok comic, fresh)
       /\ length (pasted comic) = 3%nat.
Proof.
  split; [intros [H _]; discriminate H|].
  apply (composer_takes_any_lengths default_fonts three_panels
           [7; 8; 9]%nat fresh).
  intros [H _]. discriminate H.
Defined.

(** Two answers without a pipe give the first panel two different
    descriptions, index, type and prompt being the same: the description
    is not a function of these alone (C2 as stated does not hold). *)
Lemma description_follows_answer :
  (count_char pipe_char (py "A robot wakes up") < 2)%nat
  /\ (count_char pipe_char (py "The end") < 2)%nat
  /\ exists w1 w2 rest1 rest2 p1 p2,
       generate_story (always (PyStr (py "A robot wakes up"))) flan_t5
         robot_prompt fresh = (Ok (p1 :: rest1), w1)
       /\ generate_story (always (PyStr (py "The end"))) flan_t5
            robot_prompt fresh = (Ok (p2 :: rest2), w2)
       /\ p_panel p1 = p_panel p2
       /\ p_type p1 = p_type p2
       /\ p_text p1 = py "A robot wakes up"
       /\ p_text p2 = py "The end"
       /\ p_text p1 <> p_text p2.
Proof.
  split; [vm_compute; lia|]. split; [vm_compute; lia|].
  eexists _, _, _, _, _, _.
  split; [vm_compute; reflexivity|]. split; [vm_compute; reflexivity|].
  repeat split. discriminate.
Qed.

Lemma few_pipes_fields_witness :
  ask (always (PyStr free_text_answer)) (story_prompts robot_prompt)
    (env fresh)
  = (Ok (replicate 4 (PyStr free_text_answer)), 4%nat)
  /\ exists panels w',
       generate_story (always (PyStr free_text_answer)) flan_t5
         robot_prompt fresh = (Ok panels, w')
       /\ exists p,
            panels !! 2%nat = Some p
            /\ p_text p = py "A robot wakes up in a dusty studio"
            /\ p_dialogue p = py "Panel 3 dialogue"
            /\ p_image_prompt p
               = py "Comic panel showing climax about a robot learns to paint, detailed illustration".
Proof.
  split; [reflexivity|].
  destruct (few_pipes_fields (always (PyStr free_text_answer)) flan_t5
              robot_prompt fresh (replicate 4 (PyStr free_text_answer))
              4%nat eq_refl) as (panels & w' & Hrun & Hfields).
  exists panels, w'. split; [exact Hrun|].
  apply (Hfields 2%nat free_text_answer (py "Climax") eq_refl eq_refl).
  vm_compute. lia.
Defined.

(** The text model raises at the first call: [generate_story] raises too
    and returns no panel (C3 as stated does not hold). *)
Lemma text_model_failure_aborts_story :
  exists w',
    generate_story text_model_down flan_t5 robot_prompt fresh
    = (Raised (ServiceError (py "CUDA out of memory")), w').
Proof. eexists. vm_compute. reflexivity. Qed.

Lemma story_exceptions_witness :
  exists panels w',
    generate_story (always PyNone) flan_t5 robot_prompt fresh
    = (Ok panels, w')
    /\ length panels = 4%nat
    /\ panels !! 0%nat
       = Some {| p_panel := 1;
                 p_type := py "Introduction";
                 p_text := py "Panel 1: Introduction";
                 p_dialogue := py "Panel 1 dialogue";
                 p_image_prompt :=
                   py "Comic panel showing introduction about a robot learns to paint, detailed illustration" |}.
Proof.
  pose proof (story_exceptions (always PyNone) flan_t5 robot_prompt fresh)
    as H.
  change (ask (always PyNone) (story_prompts robot_prompt) (env fresh))
    with (@Ok (list pyobj) (replicate 4 PyNone), 4%nat) in H.
  destruct H as (panels & w' & Hrun & _ & Hlen & Hfallback).
  exists panels, w'. split; [exact Hrun|]. split; [exact Hlen|].
  exact (Hfallback 0%nat (py "Introduction") eq_refl eq_refl).
Defined.

Lemma story_types_in_order_witness :
  ask (always (PyStr well_formed_answer)) (story_prompts robot_prompt)
    (env fresh)
  = (Ok (replicate 4 (PyStr well_formed_answer)), 4%nat)
  /\ exists panels w',
       generate_story (always (PyStr well_formed_answer)) flan_t5
         robot_prompt fresh = (Ok panels, w')
       /\ length panels = 4%nat
       /\ map p_type panels
          = [py "Introduction"; py "Storyline"; py "Climax";
             py "Resolution"]
       /\ map p_panel panels = [1; 2; 3; 4].
Proof.
  split; [reflexivity|].
  apply (proj2 (story_types_in_order (always (PyStr well_formed_answer))
                  flan_t5 robot_prompt fresh)
           (replicate 4 (PyStr well_formed_answer)) 4%nat).
  reflexivity.
Defined.

Lemma enhanced_prompt_prefix_witness :
  (py "noir" ∉ known_styles)
  /\ generate_image (always PyNone) stable_diffusion
       (py "a robot at an easel") (py "noir") fresh
     = generate_image (always PyNone) stable_diffusion
         (py "a robot at an easel") (py "comic") fresh.
Proof.
  assert (Hnew : py "noir" ∉ known_styles)
    by (apply (bool_decide_unpack _); vm_compute; exact I).
  split; [exact Hnew|].
  apply (enhanced_prompt_prefix (always PyNone) stable_diffusion
           (py "a robot at an easel") (py "noir") fresh).
  exact Hnew.
Defined.

Lemma captions_truncated_witness :
  four_panels !! 1%nat = Some (sample_panel 2 long_text long_dialogue)
  /\ [11; 12; 13; 14]%nat !! 1%nat = Some 12%nat
  /\ exists comic,
       assemble_comic default_fonts four_panels [11; 12; 13; 14]%nat fresh
       = (Ok comic, fresh)
       /\ In ((562, 562),
              py "The robot studies every canvas in the gallery before it d...")
            (texts comic)
       /\ In ((562, 592),
              [0x22%N] ++ py "I have never held anything so small a..."
                ++ [0x22%N])
            (texts comic).
Proof.
  split; [reflexivity|]. split; [reflexivity|].
  destruct (captions_truncated default_fonts four_panels
              [11; 12; 13; 14]%nat fresh 1%nat
              (sample_panel 2 long_text long_dialogue) 12%nat
              eq_refl eq_refl)
    as (comic & x & y & description & dialogue & Hrun & Hcell & Hdesc & Hdlg
        & Hlong & _ & Hlong' & _).
  injection Hcell as <- <-.
  destruct Hlong as [-> _]; [vm_compute; lia|].
  destruct Hlong' as [-> _]; [vm_compute; lia|].
  exists comic. split; [exact Hrun|]. split; [exact Hdesc|exact Hdlg].
Defined.

(** Four panels and four images: the page is 1260 high, not 1240 (C7 as
    stated does not hold). *)
Lemma page_height_is_1260 :
  length four_panels = 4%nat
  /\ length [11; 12; 13; 14]%nat = 4%nat
  /\ exists comic,
       assemble_comic default_fonts four_panels [11; 12; 13; 14]%nat fresh
       = (Ok comic, fresh)
       /\ im_size comic = (1084, 1260)
       /\ im_size comic <> (1084, 1240).
Proof.
  split; [reflexivity|]. split; [reflexivity|].
  destruct (assemble_comic_spec default_fonts four_panels
              [11; 12; 13; 14]%nat fresh) as (comic & Hrun & Hsize & _).
  exists comic. split; [exact Hrun|]. rewrite Hsize.
  split; [reflexivity|discriminate].
Qed.

Lemma panels_row_major_witness :
  four_panels !! 3%nat = Some (sample_panel 4 (py "Night") (py "Goodbye"))
  /\ [11; 12; 13; 14]%nat !! 3%nat = Some 14%nat
  /\ exists comic,
       assemble_comic default_fonts four_panels [11; 12; 13; 14]%nat fresh
       = (Ok comic, fresh)
       /\ pasted comic !! 3%nat = Some (14%nat, (552, 640)).
Proof.
  split; [reflexivity|]. split; [reflexivity|].
  destruct (panels_row_major default_fonts four_panels
              [11; 12; 13; 14]%nat fresh 3%nat
              (sample_panel 4 (py "Night") (py "Goodbye")) 14%nat
              eq_refl eq_refl)
    as (comic & Hrun & Hpasted & _).
  exists comic. split; [exact Hrun|exact Hpasted].
Defined.

Lemma surplus_ignored_witness :
  length four_panels <> length [11; 12]%nat
  /\ exists comic,
       assemble_comic default_fonts four_panels [11; 12]%nat fresh
       = (Ok comic, fresh)
       /\ im_size comic = (1084, 1260)
       /\ length (pasted comic) = 2%nat
       /\ pasted comic !! 1%nat = Some (12%nat, (552, 20)).
Proof.
  assert (Hne : length four_panels <> length [11; 12]%nat)
    by (vm_compute; lia).
  split; [exact Hne|].
  destruct (surplus_ignored default_fonts four_panels [11; 12]%nat fresh Hne)
    as (comic & Hrun & Hsize & Hlen & _ & Hpairs).
  exists comic. split; [exact Hrun|]. split; [exact Hsize|].
  split; [exact Hlen|].
  exact (proj1 (Hpairs 1%nat (sample_panel 2 long_text long_dialogue) 12%nat
                  eq_refl eq_refl)).
Defined.

Lemma one_png_per_run_witness :
  responsive (always (PyStr well_formed_answer))
  /\ exists comic story_data w',
       generate_comic (always (PyStr well_formed_answer)) robot_prompt
         (py "manga") fresh
       = (Ok (comic, story_data), w')
       /\ saved_files (trace w')
          = [(py "comic_output/comic_1730000000.png", comic)].
Proof.
  assert (Hresp : responsive (always (PyStr well_formed_answer))).
  { repeat split; intros; cbn; eauto. }
  split; [exact Hresp|].
  destruct (proj2 (one_png_per_run (always (PyStr well_formed_answer))
                     robot_prompt (py "manga") fresh) Hresp)
    as (comic & story_data & w' & _ & _ & _ & _ & _ & _ & e & now & e1
        & Hrun & _ & _ & Hclock & _ & Hsaved).
  injection Hclock as <- _.
  exists comic, story_data, w'. split; [exact Hrun|exact Hsaved].
Defined.

(** ** Further properties of the notebook *)

(** *** Splitting and stripping *)

Lemma split_no_sep (sep : N) (s : pystr) :
  sep ∉ s -> split sep s = [s].
Proof.
  induction s as [|c s IH]; [reflexivity|].
  rewrite not_elem_of_cons. intros [Hc Hs]. cbn [split].
  destruct (N.eqb_spec c sep) as [->|_]; [congruence|].
  now rewrite IH.
Qed.

Lemma split_app_sep (sep : N) (a b : pystr) :
  sep ∉ a -> split sep (a ++ sep :: b) = a :: split sep b.
Proof.
  induction a as [|c a IH]; intros Ha.
  - cbn [app split]. now rewrite N.eqb_refl.
  - apply not_elem_of_cons in Ha as [Hc Ha]. cbn [app split].
    destruct (N.eqb_spec c sep) as [->|_]; [congruence|].
    now rewrite IH.
Qed.

Lemma lstrip_head (s : pystr) c :
  head (lstrip s) = Some c -> isspace c = false.
Proof.
  induction s as [|d s IH]; [discriminate|]. cbn [lstrip].
  destruct (isspace d) eqn:Hd; [exact IH|].
  now intros [= <-].
Qed.

Lemma lstrip_suffix (s : pystr) : exists k, s = k ++ lstrip s.
Proof.
  induction s as [|d s [k IH]]; [now exists []|]. cbn [lstrip].
  destruct (isspace d).
  - exists (d :: k). cbn. now rewrite <- IH.
  - now exists [].
Qed.

Lemma lstrip_length (s : pystr) : (length (lstrip s) <= length s)%nat.
Proof.
  destruct (lstrip_suffix s) as [k Hk]. rewrite Hk at 2.
  rewrite length_app. lia.
Qed.

Lemma last_rev_head (s : pystr) : last (rev s) = head s.
Proof.
  destruct s as [|c s]; [reflexivity|]. cbn [rev head]. apply last_snoc.
Qed.

Lemma rstrip_last (s : pystr) c :
  last (rstrip s) = Some c -> isspace c = false.
Proof. unfold rstrip. rewrite last_rev_head. apply lstrip_head. Qed.

Lemma strip_length (s : pystr) : (length (strip s) <= length s)%nat.
Proof.
  unfold strip, rstrip.
  etransitivity; [apply lstrip_length|].
  rewrite length_rev. etransitivity; [apply lstrip_length|].
  now rewrite length_rev.
Qed.

Lemma strip_trimmed (s : pystr) : trimmed (strip s).
Proof.
  split; intros c; unfold strip.
  - apply lstrip_head.
  - destruct (lstrip_suffix (rstrip s)) as [k Hk].
    intros Hlast. apply (rstrip_last s). rewrite Hk.
    rewrite last_app, Hlast. reflexivity.
Qed.

Lemma split_pieces_no_sep (sep : N) (s : pystr) :
  Forall (fun piece => sep ∉ piece) (split sep s).
Proof.
  induction s as [|c s IH]; cbn [split].
  - repeat constructor. apply not_elem_of_nil.
  - destruct (N.eqb_spec c sep) as [->|Hne].
    + constructor; [apply not_elem_of_nil|exact IH].
    + destruct (split sep s) as [|p ps]; inversion IH; subst.
      * repeat constructor. rewrite not_elem_of_cons. split; [congruence|].
        apply not_elem_of_nil.
      * constructor; [|assumption]. rewrite not_elem_of_cons.
        split; [congruence|assumption].
Qed.

Lemma lstrip_elem_of (s : pystr) c : c ∈ lstrip s -> c ∈ s.
Proof.
  destruct (lstrip_suffix s) as [k Hk]. intros Hc. rewrite Hk.
  apply elem_of_app. now right.
Qed.

Lemma strip_elem_of (s : pystr) c : c ∈ strip s -> c ∈ s.
Proof.
  unfold strip, rstrip. intros Hc%lstrip_elem_of.
  apply list_elem_of_In, in_rev, list_elem_of_In, lstrip_elem_of in Hc.
  now apply list_elem_of_In, in_rev, list_elem_of_In in Hc.
Qed.

(** *** Story generation, continued *)

Section StoryProperties.
Context {Env image : Type} (svc : services Env image).

Local Abbreviation world := (world Env image).

(** Panel [i] of a story of four answers. *)
Lemma story_panel_at prompt (cs : list pyobj) (i : nat) c :
  cs !! i = Some c ->
  length cs = 4%nat ->
  exists panel_type,
    panel_types !! i = Some panel_type
    /\ zip_with (make_panel prompt) (enumerate panel_types) cs !! i
       = Some (make_panel prompt (Z.of_nat i, panel_type) c).
Proof.
  intros Hc Hlen.
  assert (Hi : (i < length panel_types)%nat).
  { apply lookup_lt_Some in Hc. cbn. lia. }
  apply lookup_lt_is_Some_2 in Hi as [panel_type Ht].
  exists panel_type. split; [exact Ht|].
  now apply story_panels_lookup.
Qed.

Lemma fields_of_well_formed i panel_type prompt d q v tail :
  pipe_char ∉ d -> pipe_char ∉ q -> pipe_char ∉ v ->
  tail = [] \/ (exists rest, tail = pipe_char :: rest) ->
  fields_of i panel_type prompt
    (PyStr (d ++ [pipe_char] ++ q ++ [pipe_char] ++ v ++ tail))
  = (strip d, strip q, strip v).
Proof.
  intros Hd Hq Hv Htail. unfold fields_of. cbn [app].
  rewrite (split_app_sep _ d) by assumption.
  rewrite (split_app_sep _ q) by assumption.
  destruct Htail as [->|[rest ->]].
  - rewrite app_nil_r, split_no_sep by assumption. reflexivity.
  - rewrite (split_app_sep _ v) by assumption.
    destruct (split pipe_char rest); reflexivity.
Qed.

(** X1.  Formatting and parsing agree: when the text model answers the
    four calls and the answer for panel [i] is "d|q|v", or "d|q|v|" followed
    by anything, with no pipe inside d, q and v, then panel [i] has d, q
    and v, each without its surrounding white space, as description,
    dialogue and image prompt; what follows a third pipe is dropped. *)
Theorem well_formed_answer_fields self prompt (w : world) cs e' :
  ask svc (story_prompts prompt) (env w) = (Ok cs, e') ->
  exists panels w',
    generate_story svc self prompt w = (Ok panels, w')
    /\ forall (i : nat) d q v tail,
         cs !! i
         = Some (PyStr (d ++ [pipe_char] ++ q ++ [pipe_char] ++ v ++ tail)) ->
         pipe_char ∉ d -> pipe_char ∉ q -> pipe_char ∉ v ->
         tail = [] \/ (exists rest, tail = pipe_char :: rest) ->
         exists p,
           panels !! i = Some p
           /\ p_text p = strip d
           /\ p_dialogue p = strip q
           /\ p_image_prompt p = strip v.
Proof.
  intros Hask. pose proof (generate_story_ask svc self prompt w) as Hrun.
  rewrite Hask in Hrun. destruct Hrun as [Hlen Hrun].
  eexists _, _. split; [exact Hrun|].
  intros i d q v tail Hc Hd Hq Hv Htail.
  destruct (story_panel_at prompt cs i _ Hc Hlen) as (panel_type & _ & Hp).
  eexists. split; [exact Hp|].
  pose proof (make_panel_fields prompt (Z.of_nat i) panel_type
                (PyStr (d ++ [pipe_char] ++ q ++ [pipe_char] ++ v ++ tail)))
    as Hf.
  rewrite fields_of_well_formed in Hf by assumption.
  injection Hf as Htext Hdialogue Himage. auto.
Qed.

Lemma fields_of_text_trimmed i panel_type prompt s :
  trimmed (fields_of i panel_type prompt (PyStr s)).1.1.
Proof.
  unfold fields_of.
  destruct (split pipe_char s) as [|p0 [|p1 [|p2 ps]]]; apply strip_trimmed.
Qed.

Lemma fields_of_many_pipes i panel_type prompt s :
  (2 <= count_char pipe_char s)%nat ->
  exists p0 p1 p2,
    fields_of i panel_type prompt (PyStr s) = (strip p0, strip p1, strip p2)
    /\ (pipe_char ∉ p0) /\ (pipe_char ∉ p1) /\ (pipe_char ∉ p2).
Proof.
  intros Hmany. pose proof (split_length pipe_char s) as Hlen.
  pose proof (split_pieces_no_sep pipe_char s) as Hfree.
  unfold fields_of.
  destruct (split pipe_char s) as [|p0 [|p1 [|p2 ps]]];
    try (cbn in Hlen; lia).
  inversion Hfree as [|? ? H0 Hfree1]; subst.
  inversion Hfree1 as [|? ? H1 Hfree2]; subst.
  inversion Hfree2 as [|? ? H2 _]; subst.
  now exists p0, p1, p2.
Qed.

(** X2.  What a string answer leaves in a panel.  The description never
    begins or ends with white space.  With fewer than two pipes in the
    answer it has at most 100 characters.  With two pipes or more, the
    dialogue and the image prompt are free of surrounding white space
    too, and none of the three fields contains a pipe. *)
Theorem string_answer_fields self prompt (w : world) cs e' :
  ask svc (story_prompts prompt) (env w) = (Ok cs, e') ->
  exists panels w',
    generate_story svc self prompt w = (Ok panels, w')
    /\ forall (i : nat) s,
         cs !! i = Some (PyStr s) ->
         exists p,
           panels !! i = Some p
           /\ trimmed (p_text p)
           /\ ((count_char pipe_char s < 2)%nat ->
               (length (p_text p) <= 100)%nat)
           /\ ((2 <= count_char pipe_char s)%nat ->
               trimmed (p_dialogue p) /\ trimmed (p_image_prompt p)
               /\ (pipe_char ∉ p_text p) /\ (pipe_char ∉ p_dialogue p)
               /\ (pipe_char ∉ p_image_prompt p)).
Proof.
  intros Hask. pose proof (generate_story_ask svc self prompt w) as Hrun.
  rewrite Hask in Hrun. destruct Hrun as [Hlen Hrun].
  eexists _, _. split; [exact Hrun|].
  intros i s Hc.
  destruct (story_panel_at prompt cs i _ Hc Hlen) as (panel_type & _ & Hp).
  eexists. split; [exact Hp|].
  pose proof (make_panel_fields prompt (Z.of_nat i) panel_type (PyStr s))
    as Hf.
  set (p := make_panel prompt (Z.of_nat i, panel_type) (PyStr s)) in *.
  split; [|split].
  - pose proof (fields_of_text_trimmed (Z.of_nat i) panel_type prompt s)
      as Ht.
    rewrite <- Hf in Ht. exact Ht.
  - intros Hfew. rewrite fields_of_few_pipes in Hf by assumption.
    injection Hf as -> _ _.
    etransitivity; [apply strip_length|]. rewrite length_take. lia.
  - intros Hmany.
    destruct (fields_of_many_pipes (Z.of_nat i) panel_type prompt s Hmany)
      as (p0 & p1 & p2 & Hfields & H0 & H1 & H2).
    rewrite Hfields in Hf. injection Hf as -> -> ->.
    repeat split; try apply strip_trimmed;
      intros Hin%strip_elem_of; contradiction.
Qed.

(** X3.  [generate_story] talks to the text model four times, with the
    prompts of the four panel types in order; the prompts do not depend
    on earlier answers.  When every call returns, the panels are made
    from the four answers, the state of the world is the one the fourth
    call left, and the run has printed "Generating story..." and one
    "Generated <type> panel" line per panel.  When a call raises, no
    later call is made and [generate_story] raises the same exception. *)
Theorem story_calls_in_order self prompt (w : world) :
  match ask svc (story_prompts prompt) (env w) with
  | (Ok cs, e') =>
      length cs = 4%nat /\
      generate_story svc self prompt w
      = (Ok (zip_with (make_panel prompt) (enumerate panel_types) cs),
         {| env := e';
            trace := trace w
                     ++ [Printed (py "Generating story...");
                         Printed (py "Generated Introduction panel");
                         Printed (py "Generated Storyline panel");
                         Printed (py "Generated Climax panel");
                         Printed (py "Generated Resolution panel")] |})
  | (Raised x, e') =>
      exists t, generate_story svc self prompt w
                = (Raised x, {| env := e'; trace := t |})
  end.
Proof.
  pose proof (generate_story_ask svc self prompt w) as Hrun.
  destruct (ask svc (story_prompts prompt) (env w)) as [[cs|x] e'];
    [|exact Hrun].
  destruct Hrun as [Hlen ->]. split; [exact Hlen|].
  now rewrite <- app_assoc.
Qed.
End StoryProperties.

(** *** Comic assembly, continued *)

Section ComposerProperties.
Context {Env image : Type} (svc : services Env image).

Local Abbreviation world := (world Env image).

(** X4.  Creating the composer never raises and touches nothing.  When
    the font file DejaVuSans.ttf can be loaded the three fonts are
    DejaVuSans at sizes 36, 18 and 16; when it cannot, all three are the
    built-in default font; the fonts are never mixed. *)
Theorem assembler_fonts (w : world) :
  ComicAssembler_init svc w
  = (Ok (if font_file svc (py "DejaVuSans.ttf")
         then {| font_title := TrueType (py "DejaVuSans.ttf") 36;
                 font_text := TrueType (py "DejaVuSans.ttf") 18;
                 font_dialogue := TrueType (py "DejaVuSans.ttf") 16 |}
         else {| font_title := DefaultFont; font_text := DefaultFont;
                 font_dialogue := DefaultFont |}),
     w).
Proof.
  unfold ComicAssembler_init, truetype, try_except, bind, ret, raise.
  now destruct (font_file svc (py "DejaVuSans.ttf")).
Qed.

(** Where the [i]-th pasted image comes from and where it goes. *)
Lemma pasted_lookup self story_data (images : list image) (w w' : world)
    comic (i : nat) im xy :
  assemble_comic self story_data images w = (Ok comic, w') ->
  pasted comic !! i = Some (im, xy) ->
  images !! i = Some im
  /\ is_Some (story_data !! i)
  /\ xy = cell_origin (Z.of_nat i).
Proof.
  intros Hrun Hpasted.
  destruct (assemble_comic_spec self story_data images w)
    as (c & Hspec & _ & Hp & _).
  rewrite Hspec in Hrun. injection Hrun as -> _.
  rewrite Hp in Hpasted. change (map ?f ?l) with (f <$> l) in Hpasted.
  rewrite list_lookup_fmap, enumerate_lookup, lookup_zip_with in Hpasted.
  destruct (story_data !! i) as [panel|]; [|discriminate].
  destruct (images !! i) as [im'|]; [|discriminate].
  cbn in Hpasted. injection Hpasted as <- <-. eauto.
Qed.

Lemma cell_origin_small (i : nat) :
  (i < 4)%nat ->
  cell_origin (Z.of_nat i)
  = nth i [(20, 20); (552, 20); (20, 640); (552, 640)] (0, 0).
Proof.
  intros Hi. destruct i as [|[|[|[|i]]]]; try reflexivity. lia.
Qed.

(** X5.  The first four panels fit on the page and keep clear of each
    other: each cell lies at least one border (20) inside the page on
    every side, and two different cells are at least one border apart,
    horizontally or vertically. *)
Theorem first_four_cells_apart self story_data (images : list image)
    (w w' : world) comic :
  assemble_comic self story_data images w = (Ok comic, w') ->
  forall (i : nat) im x y,
    pasted comic !! i = Some (im, (x, y)) ->
    (i < 4)%nat ->
    (border <= x /\ x + panel_width + border <= (im_size comic).1
     /\ border <= y /\ y + panel_height + border <= (im_size comic).2)
    /\ forall (j : nat) im' x' y',
         pasted comic !! j = Some (im', (x', y')) ->
         (j < 4)%nat -> i <> j ->
         x + panel_width + border <= x' \/ x' + panel_width + border <= x
         \/ y + panel_height + border <= y'
         \/ y' + panel_height + border <= y.
Proof.
  intros Hrun i im x y Hi Hlt.
  assert (Hsize : im_size comic = (1084, 1260)).
  { destruct (assemble_comic_spec self story_data images w)
      as (c & Hspec & Hsize & _).
    rewrite Hspec in Hrun. now injection Hrun as <- _. }
  destruct (pasted_lookup _ _ _ _ _ _ _ _ _ Hrun Hi) as (_ & _ & Hxy).
  rewrite cell_origin_small in Hxy by assumption. rewrite Hsize.
  unfold border, panel_width, panel_height. cbn [fst snd]. split.
  - destruct i as [|[|[|[|i]]]]; [..|lia]; injection Hxy as -> ->; lia.
  - intros j im' x' y' Hj Hltj Hne.
    destruct (pasted_lookup _ _ _ _ _ _ _ _ _ Hrun Hj) as (_ & _ & Hxy').
    rewrite cell_origin_small in Hxy' by assumption.
    destruct i as [|[|[|[|i]]]]; [..|lia]; injection Hxy as -> ->;
      destruct j as [|[|[|[|j]]]]; try lia; injection Hxy' as -> ->; lia.
Qed.

(** X6.  A fifth panel and every later one is placed below the page: its
    top edge is at or under the bottom edge of the page, so nothing of it
    shows. *)
Theorem later_panels_below_page self story_data (images : list image)
    (w w' : world) comic (i : nat) im x y :
  assemble_comic self story_data images w = (Ok comic, w') ->
  pasted comic !! i = Some (im, (x, y)) ->
  (4 <= i)%nat ->
  (im_size comic).2 <= y.
Proof.
  intros Hrun Hi Hge.
  assert (Hsize : im_size comic = (1084, 1260)).
  { destruct (assemble_comic_spec self story_data images w)
      as (c & Hspec & Hsize & _).
    rewrite Hspec in Hrun. now injection Hrun as <- _. }
  destruct (pasted_lookup _ _ _ _ _ _ _ _ _ Hrun Hi) as (_ & _ & Hxy).
  injection Hxy as -> ->. rewrite Hsize.
  unfold border, panel_height. cbn [snd].
  assert (2 <= Z.of_nat i / 2) by (apply Z.div_le_lower_bound; lia).
  lia.
Qed.

Lemma caption_length limit keep s :
  (keep + 3 = limit)%nat -> (length (caption limit keep s) <= limit)%nat.
Proof.
  intros Hkeep. destruct (Nat.le_gt_cases (length s) limit) as [Hle|Hgt].
  - now rewrite caption_short.
  - destruct (caption_long limit keep s Hkeep Hgt) as [_ ->]. lia.
Qed.

Lemma pair_panel (story_data : list panel) (images : list image) it :
  In it (enumerate (zip story_data images)) -> In it.2.1 story_data.
Proof.
  intros Hin. apply list_elem_of_In, list_elem_of_lookup in Hin as [k Hk].
  rewrite enumerate_lookup, lookup_zip_with in Hk.
  destruct (story_data !! k) as [panel|] eqn:Hp; [|discriminate].
  destruct (images !! k) as [im|]; [|discriminate].
  cbn in Hk. injection Hk as <-. cbn.
  now apply list_elem_of_lookup_2, list_elem_of_In in Hp.
Qed.

(** X7.  Nothing long is ever drawn: every string on the page is the
    title "Comic Story", the label "Panel <n>: <type>" of a panel of the
    story, the description of a panel cut to at most 60 characters, or
    the dialogue of a panel cut to at most 40 characters and put between
    double quotes (42 in all). *)
Theorem drawn_strings_bounded self story_data (images : list image)
    (w w' : world) comic :
  assemble_comic self story_data images w = (Ok comic, w') ->
  forall xy s,
    In (xy, s) (texts comic) ->
    s = py "Comic Story"
    \/ exists panel,
         In panel story_data
         /\ (s = panel_label panel
             \/ (s = caption 60 57 (p_text panel)
                 /\ (length s <= 60)%nat)
             \/ (s = [0x22%N] ++ caption 40 37 (p_dialogue panel)
                       ++ [0x22%N]
                 /\ (length s <= 42)%nat)).
Proof.
  intros Hrun xy s Hin.
  destruct (assemble_comic_spec self story_data images w)
    as (c & Hspec & _ & _ & Htexts).
  rewrite Hspec in Hrun. injection Hrun as -> _.
  rewrite Htexts in Hin. destruct Hin as [[= _ <-]|Hin]; [now left|].
  right. apply in_concat in Hin as (block & Hblock & Hin).
  apply in_map_iff in Hblock as (it & <- & Hit).
  exists it.2.1. split; [now apply pair_panel in Hit|].
  destruct it as [i [panel im]]. cbn [fst snd].
  unfold panel_texts in Hin. destruct (cell_origin i) as [x y].
  destruct Hin as [[= _ <-]|[[= _ <-]|[[= _ <-]|[]]]].
  - now left.
  - right. left. split; [reflexivity|]. now apply caption_length.
  - right. right. split; [reflexivity|].
    cbn [length]. rewrite length_app. cbn [length].
    pose proof (caption_length 40 37 (p_dialogue panel) eq_refl). lia.
Qed.

(** X8.  Without panels, or without images, the page is still made: it
    has the fixed size, and the title is all that is drawn on it. *)
Theorem empty_story_title_only self story_data (images : list image)
    (w : world) :
  story_data = [] \/ images = [] ->
  assemble_comic self story_data images w
  = (Ok {| im_size := (1084, 1260);
           background := (255, 255, 255);
           ops := [Text (442, 10) (py "Comic Story") (0, 0, 0)
                     (font_title self)] |},
     w).
Proof.
  intros Hempty.
  assert (Hzip : zip story_data images = []).
  { destruct Hempty as [-> | ->]; [reflexivity|].
    now destruct story_data. }
  unfold assemble_comic. now rewrite Hzip.
Qed.
End ComposerProperties.

(** *** The main function, continued *)

Section RunProperties.
Context {Env image : Type} (svc : services Env image).

Local Abbreviation M := (@M Env image).
Local Abbreviation world := (world Env image).

Lemma bind_inv_ok {A B} (m : M A) (k : A -> M B) (w w' : world) b :
  bind m k w = (Ok b, w') ->
  exists a w1, m w = (Ok a, w1) /\ k a w1 = (Ok b, w').
Proof.
  unfold bind. destruct (m w) as [[a|x] w1]; [eauto|discriminate].
Qed.

Lemma call_inv {A} (f : Env -> result A * Env) (w w' : world) r :
  call f w = (r, w') -> f (env w) = (r, env w') /\ trace w' = trace w.
Proof.
  unfold call. destruct (f (env w)) as [r1 e1]. now intros [= <- <-].
Qed.

Lemma enumerate_map_snd {A B} (f : A -> B) (l : list A) :
  map (fun it => f it.2) (enumerate l) = map f l.
Proof.
  change (map ?g ?k) with (g <$> k). apply list_eq. intros k.
  rewrite !list_lookup_fmap, enumerate_lookup.
  now destruct (l !! k).
Qed.

(** The loop that renders the panels, against the answers of the image
    model. *)
Lemma render_loop image_gen style (l : list (Z * panel)) :
  forall acc (w : world),
    match paint svc
            (map (fun it => style_prefix style ++ py ", "
                              ++ p_image_prompt it.2) l) (env w) with
    | (Ok ims, e') =>
        length ims = length l /\
        exists t,
          for_each l acc (render_step svc image_gen style) w
          = (Ok (acc ++ ims), {| env := e'; trace := t |})
    | (Raised x, e') =>
        exists t, for_each l acc (render_step svc image_gen style) w
                  = (Raised x, {| env := e'; trace := t |})
    end.
Proof.
  induction l as [|[i panel] l IH]; intros acc w.
  - cbn. split; [reflexivity|]. exists (trace w).
    unfold ret. now rewrite app_nil_r, world_eta.
  - cbn [map paint for_each snd].
    assert (Hstep : render_step svc image_gen style acc (i, panel) w
                    = match pipe svc (env w)
                              (style_prefix style ++ py ", "
                                 ++ p_image_prompt panel) pipe_kwargs with
                      | (Ok im, e1) =>
                          (Ok (acc ++ [im]),
                           {| env := e1;
                              trace := trace w
                                ++ [Printed (nl
                                      ++ py "Generating image for panel "
                                      ++ str_int (i + 1) ++ py "...")] |})
                      | (Raised x, e1) =>
                          (Raised x,
                           {| env := e1;
                              trace := trace w
                                ++ [Printed (nl
                                      ++ py "Generating image for panel "
                                      ++ str_int (i + 1) ++ py "...")] |})
                      end).
    { unfold render_step. erewrite bind_ok; [|apply print_run].
      unfold bind at 1. rewrite generate_image_call. unfold call, ret.
      cbn [env trace]. fold (style_prefix style).
      now destruct (pipe svc (env w) _ pipe_kwargs) as [[im|x] e1]. }
    destruct (pipe svc (env w)
                (style_prefix style ++ py ", " ++ p_image_prompt panel)
                pipe_kwargs) as [[im|x] e1].
    + erewrite bind_ok; [|exact Hstep].
      specialize (IH (acc ++ [im])
                    {| env := e1;
                       trace := trace w
                         ++ [Printed (nl ++ py "Generating image for panel "
                                        ++ str_int (i + 1) ++ py "...")] |}).
      cbn [env] in IH.
      destruct (paint svc _ e1) as [[ims|x] e2].
      * destruct IH as [Hlen [t IH]]. split; [cbn; now rewrite Hlen|].
        exists t. rewrite IH. now rewrite <- app_assoc.
      * exact IH.
    + erewrite bind_raised; [|exact Hstep]. eauto.
Qed.

(** A story that [generate_story] returned. *)
Lemma story_done self prompt (w w' : world) story_data :
  generate_story svc self prompt w = (Ok story_data, w') ->
  exists c0 c1 c2 c3,
    story_data
    = [make_panel prompt (0, py "Introduction") c0;
       make_panel prompt (1, py "Storyline") c1;
       make_panel prompt (2, py "Climax") c2;
       make_panel prompt (3, py "Resolution") c3].
Proof.
  intros Hdone. pose proof (generate_story_ask svc self prompt w) as Hrun.
  destruct (ask svc (story_prompts prompt) (env w)) as [[cs|x] e1].
  - destruct Hrun as [Hlen Hrun]. rewrite Hrun in Hdone.
    injection Hdone as <- _.
    destruct cs as [|c0 [|c1 [|c2 [|c3 [|c4 cs]]]]]; try discriminate Hlen.
    now exists c0, c1, c2, c3.
  - destruct Hrun as [t Hrun]. rewrite Hrun in Hdone. discriminate.
Qed.

(** The file name made from a clock value. *)
Local Abbreviation file_at now :=
  (py "comic_output/comic_" ++ str_int (int_float now) ++ py ".png").

(** A completed run of [generate_comic], stage by stage. *)
Lemma generate_comic_done prompt style (w w' : world) comic story_data :
  generate_comic svc prompt style w = (Ok (comic, story_data), w') ->
  exists story_gen (ws ws' : world) image_gen (wr wr' : world) images
         assembler (wa : world) now e1,
    generate_story svc story_gen prompt ws = (Ok story_data, ws')
    /\ for_each (enumerate story_data) [] (render_step svc image_gen style) wr
       = (Ok images, wr')
    /\ assemble_comic assembler story_data images wa = (Ok comic, wa)
    /\ time_time svc (env wa) = (now, e1)
    /\ fs_write svc e1 (file_at now) = (Ok tt, env w')
    /\ trace w'
       = trace wa
         ++ [Saved (file_at now) comic;
             Printed (nl ++ py "Comic saved to " ++ file_at now);
             Shown comic (py "Comic based on: " ++ prompt)]
    /\ saved_files (trace wa) = saved_files (trace w).
Proof.
  intros H. unfold generate_comic in H.
  apply bind_inv_ok in H as (u1 & w1 & H1 & H).
  apply bind_inv_ok in H as (story_gen & w2 & H2 & H).
  apply bind_inv_ok in H as (story & w3 & H3 & H).
  apply bind_inv_ok in H as (u4 & w4 & H4 & H).
  apply bind_inv_ok in H as (u5 & w5 & H5 & H).
  apply bind_inv_ok in H as (image_gen & w6 & H6 & H).
  apply bind_inv_ok in H as (images & w7 & H7 & H).
  apply bind_inv_ok in H as (u8 & w8 & H8 & H).
  apply bind_inv_ok in H as (assembler & w9 & H9 & H).
  apply bind_inv_ok in H as (page & w10 & H10 & H).
  apply bind_inv_ok in H as (now & w11 & H11 & H).
  cbv zeta in H.
  apply bind_inv_ok in H as (u12 & w12 & H12 & H).
  injection H as <- <- <-.
  assert (w10 = w9) as ->.
  { destruct (assemble_comic_spec assembler story images w9)
      as (c & Hspec & _).
    rewrite Hspec in H10. now injection H10. }
  apply call_inv in H11 as [Hclock Htrace11].
  unfold time_time_call in Hclock.
  destruct (time_time svc (env w9)) as [now' e1] eqn:Htime.
  injection Hclock as <- Henv11.
  unfold save in H12.
  apply bind_inv_ok in H12 as ([] & w13 & Hfs & H12).
  apply call_inv in Hfs as [Hfs Htrace13].
  injection H12 as _ <-. cbn [env trace].
  exists story_gen, w2, w3, image_gen, w6, w7, images, assembler, w9,
    now', e1.
  split; [exact H3|]. split; [exact H7|]. split; [exact H10|].
  split; [exact Htime|]. split; [now rewrite Henv11|].
  split; [rewrite Htrace13, Htrace11; now rewrite <- !app_assoc|].
  rewrite (quiet_ComicAssembler_init svc _ _ _ H9).
  rewrite (quiet_print _ _ _ _ H8).
  rewrite (quiet_for_each _ _ (quiet_render_step svc image_gen style) _
             _ _ _ H7).
  rewrite (quiet_ImageGenerator_init svc _ _ _ H6).
  rewrite (quiet_for_each _ _ quiet_show_panel _ _ _ _ H5).
  rewrite (quiet_print _ _ _ _ H4).
  rewrite (quiet_generate_story svc _ _ _ _ _ H3).
  rewrite (quiet_StoryGenerator_init svc _ _ _ H2).
  exact (quiet_print _ _ _ _ H1).
Qed.


(** X10.  A completed run ends with three effects on one page and one
    file name: the page is saved under comic_output/comic_<t>.png, the
    line "Comic saved to" names that very file, and the figure shown is
    that very page, titled "Comic based on: <prompt>".  Nothing was
    written before. *)
Theorem completed_run_reports prompt style (w w' : world) comic story_data :
  generate_comic svc prompt style w = (Ok (comic, story_data), w') ->
  exists t now,
    trace w'
    = t ++ [Saved (file_at now) comic;
            Printed (nl ++ py "Comic saved to " ++ file_at now);
            Shown comic (py "Comic based on: " ++ prompt)]
    /\ saved_files t = saved_files (trace w).
Proof.
  intros Hrun.
  destruct (generate_comic_done _ _ _ _ _ _ Hrun)
    as (_ & _ & _ & _ & _ & _ & _ & _ & wa & now & _ & _ & _ & _ & _ & _
        & Htrace & Hsaved).
  now exists (trace wa), now.
Qed.

Lemma writes_if_done_bind {A B} P (m : M A) (k : A -> M B) :
  quiet m -> (forall a, writes_if_done P (k a)) ->
  writes_if_done P (bind m k).
Proof.
  intros Hm Hk w r w'. unfold bind.
  destruct (m w) as [[a|e] w1] eqn:Hrun; intros Hrest.
  - specialize (Hk a _ _ _ Hrest). rewrite (Hm _ _ _ Hrun) in Hk.
    exact Hk.
  - injection Hrest as <- <-. exact (Hm _ _ _ Hrun).
Qed.

Lemma writes_if_done_save comic (t : Z) line title
    (story_data : list panel) :
  writes_if_done
    (fun (out : canvas image * list panel) files =>
       exists t' : Z,
         files = [(py "comic_output/comic_" ++ str_int t' ++ py ".png",
                   out.1)])
    (save svc comic (py "comic_output/comic_" ++ str_int t ++ py ".png") ;;
     print line ;;
     plt_show comic title ;;
     ret (comic, story_data)).
Proof.
  intros w r w' Hrun.
  destruct (fs_write svc (env w)
              (py "comic_output/comic_" ++ str_int t ++ py ".png"))
    as [[[]|x] e1] eqn:Hfs.
  - erewrite bind_ok in Hrun; [|apply save_run, Hfs].
    injection Hrun as <- <-. cbn [trace].
    eexists. split; [|now exists t].
    rewrite !saved_files_snoc. now rewrite !app_nil_r.
  - erewrite bind_raised in Hrun; [|apply save_raised, Hfs].
    now injection Hrun as <- <-.
Qed.

Lemma writes_if_done_generate_comic prompt style :
  writes_if_done
    (fun (out : canvas image * list panel) files =>
       exists t : Z,
         files = [(py "comic_output/comic_" ++ str_int t ++ py ".png",
                   out.1)])
    (generate_comic svc prompt style).
Proof.
  unfold generate_comic.
  do 11 (apply writes_if_done_bind;
         [ first [ apply quiet_print | apply quiet_StoryGenerator_init
                 | apply quiet_generate_story
                 | apply quiet_ImageGenerator_init
                 | apply quiet_ComicAssembler_init
                 | apply quiet_assemble_comic | apply quiet_call
                 | apply quiet_for_each; intros;
                   first [ apply quiet_show_panel
                         | apply quiet_render_step ] ]
         | intros ? ]).
  apply writes_if_done_save.
Qed.


Lemma paint_raises x p ps e :
  image_model_raises svc x ->
  exists e', paint svc (p :: ps) e = (Raised x, e').
Proof.
  intros Hdown. destruct (Hdown e p pipe_kwargs) as [e' Hpipe].
  exists e'. cbn [paint]. now rewrite Hpipe.
Qed.

Section TextSide.
Hypothesis Htext : text_side_responsive svc.

Lemma text_side_StoryGenerator_init : returns (StoryGenerator_init svc).
Proof.
  unfold StoryGenerator_init.
  apply returns_bind; [apply returns_print|]. intros _.
  apply returns_bind.
  - apply returns_call. intros e. destruct Htext as (Hload & _).
    destruct (Hload e (py "google/flan-t5-base")) as [e' ->].
    now exists tt, e'.
  - intros _. apply returns_bind; [apply returns_print|]. intros _.
    apply returns_ret.
Qed.

Lemma text_side_generate_story self prompt :
  returns (generate_story svc self prompt).
Proof.
  unfold generate_story.
  apply returns_bind; [apply returns_print|]. intros _.
  apply returns_bind; [|intros; apply returns_ret].
  apply returns_for_each. intros panels [i panel_type]. unfold story_step.
  apply returns_bind.
  - apply returns_call. intros e. destruct Htext as (_ & Hgen & _).
    apply Hgen.
  - intros content. apply returns_bind.
    + intros w. rewrite parse_content_fields. now eexists _, _.
    + intros [[text dialogue] image_prompt].
      apply returns_bind; [apply returns_print|]. intros _.
      apply returns_ret.
Qed.

Lemma text_side_show_panels (story_data : list panel) :
  returns (for_each story_data tt show_panel : M unit).
Proof.
  apply returns_for_each. intros u panel. unfold show_panel.
  apply returns_bind; [apply returns_print|]. intros _.
  apply returns_bind; [apply returns_print|]. intros _.
  apply returns_print.
Qed.

Lemma text_side_ImageGenerator_init : returns (ImageGenerator_init svc).
Proof.
  unfold ImageGenerator_init.
  apply returns_bind; [apply returns_print|]. intros _.
  apply returns_bind.
  - apply returns_call. intros e. destruct Htext as (_ & _ & Hload).
    destruct (Hload e (py "runwayml/stable-diffusion-v1-5")) as [e' ->].
    now exists tt, e'.
  - intros _. apply returns_bind; [apply returns_print|]. intros _.
    apply returns_ret.
Qed.
End TextSide.

Ltac next_stage Hret Hquiet a w1 Hrun :=
  match goal with
  | H : context [@bind _ _ _ _ ?m ?k ?w] |- _ =>
      let Hb := fresh "Hb" in
      let Hs := fresh "Hs" in
      destruct (run_stage m k w Hret Hquiet) as (a & w1 & Hrun & Hs & Hb);
      rewrite Hb in H; clear Hb Hs
  end.

End RunProperties.

(** *** The further properties on concrete runs *)

Lemma well_formed_answer_fields_witness :
  ask (always (PyStr well_formed_answer)) (story_prompts robot_prompt)
    (env fresh)
  = (Ok (replicate 4 (PyStr well_formed_answer)), 4%nat)
  /\ exists panels w',
       generate_story (always (PyStr well_formed_answer)) flan_t5
         robot_prompt fresh = (Ok panels, w')
       /\ exists p,
            panels !! 1%nat = Some p
            /\ p_text p = py "A robot finds a brush"
            /\ p_dialogue p = py "What is this?"
            /\ p_image_prompt p = py "robot holding a brush".
Proof.
  split; [reflexivity|].
  destruct (well_formed_answer_fields (always (PyStr well_formed_answer))
              flan_t5 robot_prompt fresh
              (replicate 4 (PyStr well_formed_answer)) 4%nat eq_refl)
    as (panels & w' & Hrun & Hfields).
  exists panels, w'. split; [exact Hrun|].
  apply (Hfields 1%nat (py "A robot finds a brush ") (py " What is this? ")
           (py " robot holding a brush") [] eq_refl).
  - apply (bool_decide_unpack _). vm_compute. exact I.
  - apply (bool_decide_unpack _). vm_compute. exact I.
  - apply (bool_decide_unpack _). vm_compute. exact I.
  - now left.
Defined.

Lemma string_answer_fields_witness :
  ask (always (PyStr free_text_answer)) (story_prompts robot_prompt)
    (env fresh)
  = (Ok (replicate 4 (PyStr free_text_answer)), 4%nat)
  /\ exists panels w',
       generate_story (always (PyStr free_text_answer)) flan_t5
         robot_prompt fresh = (Ok panels, w')
       /\ exists p,
            panels !! 3%nat = Some p
            /\ trimmed (p_text p)
            /\ (length (p_text p) <= 100)%nat.
Proof.
  split; [reflexivity|].
  destruct (string_answer_fields (always (PyStr free_text_answer))
              flan_t5 robot_prompt fresh
              (replicate 4 (PyStr free_text_answer)) 4%nat eq_refl)
    as (panels & w' & Hrun & Hfields).
  exists panels, w'. split; [exact Hrun|].
  destruct (Hfields 3%nat free_text_answer eq_refl)
    as (p & Hp & Htrim & Hshort & _).
  exists p. split; [exact Hp|]. split; [exact Htrim|].
  apply Hshort. vm_compute. lia.
Defined.

Lemma first_four_cells_apart_witness :
  exists comic,
    assemble_comic default_fonts four_panels [11; 12; 13; 14]%nat fresh
    = (Ok comic, fresh)
    /\ pasted comic !! 1%nat = Some (12%nat, (552, 20))
    /\ pasted comic !! 2%nat = Some (13%nat, (20, 640))
    /\ (552 + panel_width + border <= 20 \/ 20 + panel_width + border <= 552
        \/ 20 + panel_height + border <= 640
        \/ 640 + panel_height + border <= 20).
Proof.
  assert (Hrun : exists comic,
             assemble_comic default_fonts four_panels [11; 12; 13; 14]%nat
               fresh = (Ok comic, fresh)
             /\ pasted comic !! 1%nat = Some (12%nat, (552, 20))
             /\ pasted comic !! 2%nat = Some (13%nat, (20, 640))).
  { eexists. split; [vm_compute; reflexivity|]. split; reflexivity. }
  destruct Hrun as (comic & Hrun & H1 & H2).
  exists comic. split; [exact Hrun|]. split; [exact H1|]. split; [exact H2|].
  apply (proj2 (first_four_cells_apart default_fonts four_panels
                  [11; 12; 13; 14]%nat fresh fresh comic Hrun 1%nat 12%nat
                  552 20 H1 ltac:(lia))
           2%nat 13%nat 20 640 H2); lia.
Defined.

Lemma later_panels_below_page_witness :
  exists comic,
    assemble_comic default_fonts
      (four_panels ++ [sample_panel 5 (py "Encore") (py "Again")])
      [11; 12; 13; 14; 15]%nat fresh
    = (Ok comic, fresh)
    /\ pasted comic !! 4%nat = Some (15%nat, (20, 1260))
    /\ (im_size comic).2 <= 1260.
Proof.
  assert (Hrun : exists comic,
             assemble_comic default_fonts
               (four_panels ++ [sample_panel 5 (py "Encore") (py "Again")])
               [11; 12; 13; 14; 15]%nat fresh
             = (Ok comic, fresh)
             /\ pasted comic !! 4%nat = Some (15%nat, (20, 1260))).
  { eexists. split; [vm_compute; reflexivity|]. reflexivity. }
  destruct Hrun as (comic & Hrun & H4).
  exists comic. split; [exact Hrun|]. split; [exact H4|].
  apply (later_panels_below_page default_fonts _ _ fresh fresh comic
           4%nat 15%nat 20 1260 Hrun H4).
  lia.
Defined.

Lemma drawn_strings_bounded_witness :
  exists comic,
    assemble_comic default_fonts four_panels [11; 12; 13; 14]%nat fresh
    = (Ok comic, fresh)
    /\ In ((562, 562),
           py "The robot studies every canvas in the gallery before it d...")
         (texts comic)
    /\ (py "The robot studies every canvas in the gallery before it d..."
        = py "Comic Story"
        \/ exists panel,
             In panel four_panels
             /\ (py "The robot studies every canvas in the gallery before it d..."
                 = panel_label panel
                 \/ (py "The robot studies every canvas in the gallery before it d..."
                     = caption 60 57 (p_text panel)
                     /\ (length (py "The robot studies every canvas in the gallery before it d...")
                         <= 60)%nat)
                 \/ (py "The robot studies every canvas in the gallery before it d..."
                     = [0x22%N] ++ caption 40 37 (p_dialogue panel)
                         ++ [0x22%N]
                     /\ (length (py "The robot studies every canvas in the gallery before it d...")
                         <= 42)%nat))).
Proof.
  assert (Hrun : exists comic,
             assemble_comic default_fonts four_panels [11; 12; 13; 14]%nat
               fresh = (Ok comic, fresh)
             /\ In ((562, 562),
                    py "The robot studies every canvas in the gallery before it d...")
                  (texts comic)).
  { eexists. split; [vm_compute; reflexivity|].
    vm_compute. do 5 right. now left. }
  destruct Hrun as (comic & Hrun & Hin).
  exists comic. split; [exact Hrun|]. split; [exact Hin|].
  exact (drawn_strings_bounded default_fonts four_panels
           [11; 12; 13; 14]%nat fresh fresh comic Hrun _ _ Hin).
Defined.

Lemma empty_story_title_only_witness :
  ([] = @nil panel \/ [11]%nat = [])
  /\ assemble_comic default_fonts [] [11]%nat fresh
     = (Ok {| im_size := (1084, 1260);
              background := (255, 255, 255);
              ops := [Text (442, 10) (py "Comic Story") (0, 0, 0)
                        DefaultFont] |},
        fresh).
Proof.
  split; [now left|].
  apply (empty_story_title_only default_fonts [] [11]%nat fresh).
  now left.
Defined.


Lemma completed_run_reports_witness :
  exists comic story_data w' t now,
    generate_comic (always (PyStr well_formed_answer)) robot_prompt
      (py "manga") fresh
    = (Ok (comic, story_data), w')
    /\ trace w'
       = t ++ [Saved (py "comic_output/comic_" ++ str_int (int_float now)
                        ++ py ".png") comic;
               Printed (nl ++ py "Comic saved to "
                          ++ py "comic_output/comic_"
                          ++ str_int (int_float now) ++ py ".png");
               Shown comic (py "Comic based on: " ++ robot_prompt)]
    /\ saved_files t = [].
Proof.
  assert (Hrun : exists comic story_data w',
             generate_comic (always (PyStr well_formed_answer)) robot_prompt
               (py "manga") fresh
             = (Ok (comic, story_data), w')).
  { eexists _, _, _. vm_compute. reflexivity. }
  destruct Hrun as (comic & story_data & w' & Hrun).
  destruct (completed_run_reports (always (PyStr well_formed_answer))
              robot_prompt (py "manga") fresh w' comic story_data Hrun)
    as (t & now & Htrace & Hsaved).
  exists comic, story_data, w', t, now.
  split; [exact Hrun|]. split; [exact Htrace|exact Hsaved].
Defined.

